(** * Order service: blocking and suspending [create_order]

    A shallow embedding of [OrderService.create_order]
    (POC_magicmock_sync/order_service.py) and of
    [OrderServiceAsync.create_order]
    (POC_magicmock_async/order_service_async.py), together with the
    properties the specification states about them.

    Python objects are modelled as follows.
    - a dict with string keys is a [gmap string value];
    - the values stored in those dicts are [None], integers, floats and
      strings (Python integers are unbounded, hence [Z]; a Python float
      is an IEEE 754 binary64 number, hence a primitive [float]);
    - an exception is a value of [exn]; an expression that may raise
      evaluates to a [result];
    - the three injected collaborators are arbitrary stateful functions
      over a shared world [W]; every call made to them is logged, the way
      the mocks of the test-suite record calls. *)

From Stdlib Require Import ZArith QArith Floats Sorted.
From stdpp Require Import gmap strings list fin_maps.

Local Open Scope Z_scope.
Local Open Scope string_scope.

(** ** Values, exceptions, results *)

Inductive value : Type :=
| VNone
| VInt (n : Z)
| VFloat (x : float)
| VStr (s : string).

#[global] Instance float_eq_dec : EqDecision float.
Proof.
  intros x y. destruct (PrimFloat.Leibniz.eqb x y) eqn:E.
  - left. by apply FloatAxioms.Leibniz.eqb_spec.
  - right. intros H. apply FloatAxioms.Leibniz.eqb_spec in H. congruence.
Defined.

#[global] Instance value_eq_dec : EqDecision value.
Proof. solve_decision. Defined.

Abbreviation dict := (gmap string value).

(** The exception classes the service raises itself ([ValueError],
    [PermissionError]), the ones Python raises on its behalf ([KeyError],
    [TypeError], whose message is not modelled, [OverflowError], and the
    [RuntimeError] that replaces a [StopIteration]), the ones the
    test-suite makes collaborators raise, and any other class:
    [OtherError] stands for a class that derives from [Exception] and
    from none of the classes named here, [BaseOnly] for a class that
    derives from [BaseException] but not from [Exception]
    ([KeyboardInterrupt], [SystemExit], ...). *)
Inductive exn : Type :=
| ValueError (msg : string)
| PermissionError (msg : string)
| KeyError (key : string)
| TypeError
| OverflowError (msg : string)
| TimeoutError (msg : string)
| RuntimeError (msg : string)
| StopIteration (msg : string)
| StopAsyncIteration (msg : string)
| OtherError (cls msg : string)
| BaseOnly (cls msg : string).

Inductive result (A : Type) : Type :=
| Returned (a : A)
| Raised (e : exn).
Arguments Returned {A} a.
Arguments Raised {A} e.

#[global] Instance result_ret : MRet result := fun _ a => Returned a.
#[global] Instance result_bind : MBind result := fun _ _ k m =>
  match m with
  | Returned a => k a
  | Raised e => Raised e
  end.

(** ** Python expressions used by [create_order] *)

(** [d[k]] *)
Definition subscript (d : dict) (k : string) : result value :=
  match d !! k with
  | Some v => Returned v
  | None => Raised (KeyError k)
  end.

(** [d.get(k, dflt)]; [d.get(k)] is [dict_get d k VNone]. *)
Definition dict_get (d : dict) (k : string) (dflt : value) : value :=
  default dflt (d !! k).

Fixpoint str_repeat (s : string) (n : nat) : string :=
  match n with
  | O => EmptyString
  | S n' => s +:+ str_repeat s n'
  end.

(** The conversion of an integer operand to a float in mixed
    arithmetic: the nearest float, ties to even, and [OverflowError] when
    that would be an infinity. *)
Definition float_of_int (n : Z) : result float :=
  let x := SF2Prim (binary_normalize prec emax n 0 false) in
  if PrimFloat.is_infinity x
  then Raised (OverflowError "int too large to convert to float")
  else Returned x.

(** The largest index of a 64-bit CPython, [sys.maxsize]. *)
Definition ssize_max : Z := 2 ^ 63 - 1.

(** [s * n] for a string: the count must fit an index and so must the
    length of the result.  (That the result fits in memory is taken for
    granted: [MemoryError] is not modelled.) *)
Definition str_mul (s : string) (n : Z) : result value :=
  if ((n <? - ssize_max - 1) || (ssize_max <? n))%Z then
    Raised (OverflowError "cannot fit 'int' into an index-sized integer")
  else if (n <? 1)%Z then Returned (VStr EmptyString)
  else if (ssize_max / n <? Z.of_nat (String.length s))%Z then
    Raised (OverflowError "repeated string is too long")
  else Returned (VStr (str_repeat s (Z.to_nat n))).

(** [a * b] *)
Definition py_mul (a b : value) : result value :=
  match a, b with
  | VInt x, VInt y => Returned (VInt (x * y))
  | VFloat x, VFloat y => Returned (VFloat (PrimFloat.mul x y))
  | VInt n, VFloat y => x ← float_of_int n; Returned (VFloat (PrimFloat.mul x y))
  | VFloat x, VInt n => y ← float_of_int n; Returned (VFloat (PrimFloat.mul x y))
  | VStr s, VInt n | VInt n, VStr s => str_mul s n
  | _, _ => Raised TypeError
  end.

(** [a + b] *)
Definition py_add (a b : value) : result value :=
  match a, b with
  | VInt x, VInt y => Returned (VInt (x + y))
  | VFloat x, VFloat y => Returned (VFloat (PrimFloat.add x y))
  | VInt n, VFloat y => x ← float_of_int n; Returned (VFloat (PrimFloat.add x y))
  | VFloat x, VInt n => y ← float_of_int n; Returned (VFloat (PrimFloat.add x y))
  | VStr s, VStr t => Returned (VStr (s +:+ t))
  | _, _ => Raised TypeError
  end.

(** [i["price"] * i.get("qty", 1)] *)
Definition line_total (i : dict) : result value :=
  p ← subscript i "price";
  py_mul p (dict_get i "qty" (VInt 1)).

(** [sum(... for i in items)] with the accumulator made explicit: the
    generator is consumed left to right and each element is added to the
    running sum as soon as it is produced.  (Floats are added one after
    the other, as CPython does up to 3.11; from 3.12 on [sum] compensates
    the rounding errors of floats.  Sums of integers are the same in
    both.) *)
Fixpoint py_sum (acc : value) (items : list dict) : result value :=
  match items with
  | [] => Returned acc
  | i :: rest =>
      v ← line_total i;
      acc' ← py_add acc v;
      py_sum acc' rest
  end.

(** [total = sum(i["price"] * i.get("qty", 1) for i in items)] *)
Definition order_total (items : list dict) : result value :=
  py_sum (VInt 0) items.

(** ** Collaborators and the call log *)

(** The three capabilities the service is constructed with.  Each method
    runs in a world [W] shared by the collaborators, which it may change,
    and either returns or raises. *)
Record PaymentGateway (W : Type) : Type :=
  { authorize_payment : Z → value → W → W * result dict }.
Record OrderRepository (W : Type) : Type :=
  { save_order : Z → list dict → value → value → W → W * result dict }.
Record AuditSink (W : Type) : Type :=
  { track : string → dict → W → W * result unit }.
Arguments authorize_payment {W} _ _ _ _.
Arguments save_order {W} _ _ _ _ _ _.
Arguments track {W} _ _ _ _.

(** [OrderService.__init__] and [OrderServiceAsync.__init__] only store
    the three references. *)
Record OrderService (W : Type) : Type :=
  { gateway : PaymentGateway W;
    repo : OrderRepository W;
    audit : AuditSink W }.
Arguments gateway {W} _.
Arguments repo {W} _.
Arguments audit {W} _.

(** One entry of the call log, with the arguments of the call. *)
Inductive call : Type :=
| AuthorizePayment (user_id : Z) (amount : value)
| SaveOrder (user_id : Z) (items : list dict) (total payment_id : value)
| Track (event : string) (payload : dict).

Definition is_authorize (c : call) : bool :=
  match c with AuthorizePayment _ _ => true | _ => false end.
Definition is_save (c : call) : bool :=
  match c with SaveOrder _ _ _ _ => true | _ => false end.
Definition is_track (c : call) : bool :=
  match c with Track _ _ => true | _ => false end.

(** How many calls of a given kind a log holds. *)
Definition count_calls (p : call → bool) (log : list call) : nat :=
  length (List.filter p log).


(** What one invocation leaves behind: how it ended, the world after it,
    and the collaborator calls it made, oldest first. *)
Record outcome (W A : Type) : Type :=
  { res : result A;
    world : W;
    calls : list call }.
Arguments res {W A} _.
Arguments world {W A} _.
Arguments calls {W A} _.
Arguments Build_outcome {W A} _ _ _.

(** ** The blocking variant *)

Section Blocking.
Context {W : Type}.

(** A blocking computation runs to its end in one go. *)
Definition blocking (A : Type) : Type := W → outcome W A.

Definition blocking_ret {A} (a : A) : blocking A :=
  λ w, {| res := Returned a; world := w; calls := [] |}.

Definition blocking_bind {A B} (k : A → blocking B) (m : blocking A) : blocking B :=
  λ w,
    let o := m w in
    match res o with
    | Returned a =>
        let o' := k a (world o) in
        {| res := res o'; world := world o'; calls := calls o ++ calls o' |}
    | Raised e => {| res := Raised e; world := world o; calls := calls o |}
    end.

#[global] Instance blocking_mret : MRet blocking := @blocking_ret.
#[global] Instance blocking_mbind : MBind blocking := @blocking_bind.

(** [raise e] *)
Definition raise {A} (e : exn) : blocking A :=
  λ w, {| res := Raised e; world := w; calls := [] |}.

(** A pure expression that may raise. *)
Definition eval {A} (r : result A) : blocking A :=
  λ w, {| res := r; world := w; calls := [] |}.

(** A collaborator call: logged, then performed. *)
Definition invoke {A} (c : call) (f : W → W * result A) : blocking A :=
  λ w, let '(w', r) := f w in {| res := r; world := w'; calls := [c] |}.

(** [OrderService.create_order] *)
Definition create_order (self : OrderService W) (user_id : Z) (items : list dict)
  : blocking dict :=
  match items with
  | [] => raise (ValueError "items cannot be empty")
  | _ :: _ =>
      total ← eval (order_total items);
      auth ← invoke (AuthorizePayment user_id total)
               (authorize_payment (gateway self) user_id total);
      let status := dict_get auth "status" VNone in
      if bool_decide (status ≠ VStr "approved") then
        let payload : dict := {[ "user_id" := VInt user_id; "total" := total ]} in
        _ ← invoke (Track "order_denied" payload)
              (track (audit self) "order_denied" payload);
        raise (PermissionError "payment not approved")
      else
        payment_id ← eval (subscript auth "payment_id");
        order ← invoke (SaveOrder user_id items total payment_id)
                  (save_order (repo self) user_id items total payment_id);
        order_id ← eval (subscript order "id");
        let payload : dict := {[ "order_id" := order_id; "total" := total ]} in
        _ ← invoke (Track "order_created" payload)
              (track (audit self) "order_created" payload);
        mret order
  end.
End Blocking.
Arguments blocking W A : clear implicits.

(** ** The suspending variant *)

(** What becomes of an exception that leaves the body of a coroutine
    (PEP 479): a [StopIteration] is replaced, any other exception is
    handed on as it is. *)
Definition coroutine_raised (e : exn) : exn :=
  match e with
  | StopIteration _ => RuntimeError "coroutine raised StopIteration"
  | _ => e
  end.

(** The same for an exception that leaves the body of a generator. *)
Definition generator_raised (e : exn) : exn :=
  match e with
  | StopIteration _ => RuntimeError "generator raised StopIteration"
  | _ => e
  end.

Module OrderServiceAsync.
Section Suspending.
Context {W : Type}.

(** What calling an [async def] method of a collaborator yields: the call
    has been made (and is logged as such) but its work is still to be
    done. *)
Record awaitable (X : Type) : Type :=
  { awaited_call : call;
    completion : W → W * result X }.
Arguments awaited_call {X} _.
Arguments completion {X} _.

(** A coroutine is either finished, by [return] or by an exception that
    leaves it, or suspended at an [await], where it hands control back to
    the event loop and waits to be resumed with the value of the
    awaitable, or with the exception it raised. *)
Inductive coroutine (A : Type) : Type :=
| Done (r : result A)
| Await {X : Type} (a : awaitable X) (resume : result X → coroutine A).
Arguments Done {A} r.
Arguments Await {A X} a resume.

Fixpoint coroutine_bind {A B} (k : A → coroutine B) (m : coroutine A) : coroutine B :=
  match m with
  | Done (Returned a) => k a
  | Done (Raised e) => Done (Raised e)
  | Await a resume => Await a (λ r, coroutine_bind k (resume r))
  end.

#[global] Instance coroutine_mret : MRet coroutine := λ _ a, Done (Returned a).
#[global] Instance coroutine_mbind : MBind coroutine := @coroutine_bind.

(** [raise e] *)
Definition raise {A} (e : exn) : coroutine A := Done (Raised e).

(** A pure expression that may raise. *)
Definition eval {A} (r : result A) : coroutine A := Done r.

(** [await a]: an exception raised by the awaitable is thrown into the
    coroutine at the [await]; nothing in [create_order] catches it. *)
Definition await {X} (a : awaitable X) : coroutine X := Await a Done.

(** Calling a collaborator's [async def] method. *)
Definition async_call {X} (c : call) (f : W → W * result X) : awaitable X :=
  {| awaited_call := c; completion := f |}.

(** The body of an [async def]: an exception that leaves it reaches
    whoever awaits the coroutine, except a [StopIteration], which Python
    replaces by a [RuntimeError] (PEP 479). *)
Fixpoint async_def {A} (body : coroutine A) : coroutine A :=
  match body with
  | Done (Returned a) => Done (Returned a)
  | Done (Raised e) => Done (Raised (coroutine_raised e))
  | Await a resume => Await a (λ r, async_def (resume r))
  end.

(** [OrderServiceAsync.create_order] *)
Definition create_order (self : OrderService W) (user_id : Z) (items : list dict)
  : coroutine dict :=
  async_def
  match items with
  | [] => raise (ValueError "items cannot be empty")
  | _ :: _ =>
      total ← eval (order_total items);
      auth ← await (async_call (AuthorizePayment user_id total)
                      (authorize_payment (gateway self) user_id total));
      let status := dict_get auth "status" VNone in
      if bool_decide (status ≠ VStr "approved") then
        let payload : dict := {[ "user_id" := VInt user_id; "total" := total ]} in
        _ ← await (async_call (Track "order_denied" payload)
                     (track (audit self) "order_denied" payload));
        raise (PermissionError "payment not approved")
      else
        payment_id ← eval (subscript auth "payment_id");
        order ← await (async_call (SaveOrder user_id items total payment_id)
                         (save_order (repo self) user_id items total payment_id));
        order_id ← eval (subscript order "id");
        let payload : dict := {[ "order_id" := order_id; "total" := total ]} in
        _ ← await (async_call (Track "order_created" payload)
                     (track (audit self) "order_created" payload));
        mret order
  end.

(** The event loop with a single task: every time the coroutine suspends,
    the awaited work is carried out and the coroutine is resumed with its
    result, until the coroutine is finished. *)
Fixpoint run_until_complete {A} (co : coroutine A) (w : W) : outcome W A :=
  match co with
  | Done r => {| res := r; world := w; calls := [] |}
  | Await a resume =>
      let '(w', r) := completion a w in
      let o := run_until_complete (resume r) w' in
      {| res := res o; world := world o; calls := awaited_call a :: calls o |}
  end.
End Suspending.
Arguments coroutine W A : clear implicits.
Arguments awaitable W X : clear implicits.
Arguments awaited_call {W X} _.
Arguments completion {W X} _.
Arguments Done {W A} r.
Arguments Await {W A X} a resume.
End OrderServiceAsync.

(** ** Both variants behind one entry point *)

Inductive mode : Type := Blocking | Suspending.

(** How an exception raised inside [create_order] reaches the caller. *)
Definition surfaced (m : mode) (e : exn) : exn :=
  match m with
  | Blocking => e
  | Suspending => coroutine_raised e
  end.

Definition result_surfaced {A} (m : mode) (r : result A) : result A :=
  match r with
  | Returned a => Returned a
  | Raised e => Raised (surfaced m e)
  end.

Definition outcome_surfaced {W A} (m : mode) (o : outcome W A) : outcome W A :=
  {| res := result_surfaced m (res o); world := world o; calls := calls o |}.

(** One invocation of [create_order] in world [w]: the blocking variant
    is simply called, the suspending one is driven to completion by the
    event loop. *)
Definition run_create_order {W} (m : mode) (self : OrderService W)
    (user_id : Z) (items : list dict) (w : W) : outcome W dict :=
  match m with
  | Blocking => create_order self user_id items w
  | Suspending =>
      OrderServiceAsync.run_until_complete
        (OrderServiceAsync.create_order self user_id items) w
  end.

(** ** Test doubles *)

(** Collaborators that behave the same at every call, like a mock
    configured with a [return_value] or with an exception as
    [side_effect].  They keep no state. *)
Definition stub_service (auth : result dict) (saved : result dict)
    (tracked : result unit) : OrderService unit :=
  {| gateway := {| authorize_payment := λ _ _ w, (w, auth) |};
     repo := {| save_order := λ _ _ _ _ w, (w, saved) |};
     audit := {| track := λ _ _ w, (w, tracked) |} |}.

(** A gateway scripted with a list of successive outcomes ([side_effect]
    given a list); the world is what is left of the script.  Once the list
    is exhausted, [MagicMock] raises [StopIteration] and [AsyncMock], which
    the suite of the suspending variant uses, [StopAsyncIteration]. *)
Definition scripted_service (m : mode) (saved : result dict)
    (tracked : result unit) : OrderService (list (result dict)) :=
  {| gateway := {| authorize_payment := λ _ _ w,
         match w with
         | r :: w' => (w', r)
         | [] => ([], Raised match m with
                             | Blocking => StopIteration EmptyString
                             | Suspending => StopAsyncIteration EmptyString
                             end)
         end |};
     repo := {| save_order := λ _ _ _ _ w, (w, saved) |};
     audit := {| track := λ _ _ w, (w, tracked) |} |}.

Definition approved (payment_id : string) : dict :=
  {[ "status" := VStr "approved"; "payment_id" := VStr payment_id ]}.
Definition denied : dict := {[ "status" := VStr "denied" ]}.
Definition item (price qty : Z) : dict :=
  {[ "price" := VInt price; "qty" := VInt qty ]}.
Definition item_no_qty (price : Z) : dict := {[ "price" := VInt price ]}.
Definition saved_order (id total : Z) : dict :=
  {[ "id" := VInt id; "total" := VInt total ]}.

(** ** The total, as the specification words it *)

(** An item whose price is an integer and whose quantity, when given, is
    an integer too.  (The data model allows any number as a price; it is
    with integers that Python's arithmetic is exact.  The service checks
    neither sign.) *)
Definition item_ok (i : dict) : bool :=
  match i !! "price", i !! "qty" with
  | Some (VInt _), None | Some (VInt _), Some (VInt _) => true
  | _, _ => false
  end.

Definition items_ok (items : list dict) : bool := forallb item_ok items.

Definition item_price (i : dict) : Z :=
  match i !! "price" with Some (VInt p) => p | _ => 0 end.

(** The quantity of an item, 1 when the item does not specify it.  (What
    is returned for a quantity that is not an integer does not matter:
    [item_ok] excludes it.) *)
Definition item_quantity (i : dict) : Z :=
  match i !! "qty" with Some (VInt q) => q | Some _ => 0 | None => 1 end.

(** Σ price × quantity over the item list. *)
Fixpoint spec_total (items : list dict) : Z :=
  match items with
  | [] => 0
  | i :: rest => item_price i * item_quantity i + spec_total rest
  end.





(** ** The ways one invocation can go *)

(** Every invocation of the blocking [create_order] follows one of eight
    paths, told apart by the item list and by what the collaborators
    answer.  Each constructor records the answers that select the path
    and the outcome the path ends with.  (The suspending variant follows
    the same paths; its exception is the one recorded here as [surfaced]
    tells.) *)
Inductive create_order_path {W : Type} (self : OrderService W) (user_id : Z)
    (items : list dict) (w : W) : outcome W dict → Prop :=
| PathEmpty :
    items = [] →
    create_order_path self user_id items w
      {| res := Raised (ValueError "items cannot be empty");
         world := w; calls := [] |}
| PathTotalRaises (e : exn) :
    items ≠ [] →
    order_total items = Raised e →
    create_order_path self user_id items w
      {| res := Raised e; world := w; calls := [] |}
| PathGatewayRaises (total : value) (e : exn) (w1 : W) :
    items ≠ [] →
    order_total items = Returned total →
    authorize_payment (gateway self) user_id total w = (w1, Raised e) →
    create_order_path self user_id items w
      {| res := Raised e; world := w1;
         calls := [AuthorizePayment user_id total] |}
| PathDenied (total : value) (auth : dict) (r : result unit) (w1 w2 : W) :
    items ≠ [] →
    order_total items = Returned total →
    authorize_payment (gateway self) user_id total w = (w1, Returned auth) →
    auth !! "status" ≠ Some (VStr "approved") →
    track (audit self) "order_denied"
      {[ "user_id" := VInt user_id; "total" := total ]} w1 = (w2, r) →
    create_order_path self user_id items w
      {| res := match r with
                | Returned _ => Raised (PermissionError "payment not approved")
                | Raised e => Raised e
                end;
         world := w2;
         calls := [AuthorizePayment user_id total;
                   Track "order_denied"
                     {[ "user_id" := VInt user_id; "total" := total ]}] |}
| PathNoPaymentId (total : value) (auth : dict) (w1 : W) :
    items ≠ [] →
    order_total items = Returned total →
    authorize_payment (gateway self) user_id total w = (w1, Returned auth) →
    auth !! "status" = Some (VStr "approved") →
    auth !! "payment_id" = None →
    create_order_path self user_id items w
      {| res := Raised (KeyError "payment_id"); world := w1;
         calls := [AuthorizePayment user_id total] |}
| PathRepoRaises (total : value) (auth : dict) (payment_id : value) (e : exn)
    (w1 w2 : W) :
    items ≠ [] →
    order_total items = Returned total →
    authorize_payment (gateway self) user_id total w = (w1, Returned auth) →
    auth !! "status" = Some (VStr "approved") →
    auth !! "payment_id" = Some payment_id →
    save_order (repo self) user_id items total payment_id w1 = (w2, Raised e) →
    create_order_path self user_id items w
      {| res := Raised e; world := w2;
         calls := [AuthorizePayment user_id total;
                   SaveOrder user_id items total payment_id] |}
| PathNoOrderId (total : value) (auth : dict) (payment_id : value)
    (order : dict) (w1 w2 : W) :
    items ≠ [] →
    order_total items = Returned total →
    authorize_payment (gateway self) user_id total w = (w1, Returned auth) →
    auth !! "status" = Some (VStr "approved") →
    auth !! "payment_id" = Some payment_id →
    save_order (repo self) user_id items total payment_id w1
      = (w2, Returned order) →
    order !! "id" = None →
    create_order_path self user_id items w
      {| res := Raised (KeyError "id"); world := w2;
         calls := [AuthorizePayment user_id total;
                   SaveOrder user_id items total payment_id] |}
| PathCreated (total : value) (auth : dict) (payment_id : value)
    (order : dict) (order_id : value) (r : result unit) (w1 w2 w3 : W) :
    items ≠ [] →
    order_total items = Returned total →
    authorize_payment (gateway self) user_id total w = (w1, Returned auth) →
    auth !! "status" = Some (VStr "approved") →
    auth !! "payment_id" = Some payment_id →
    save_order (repo self) user_id items total payment_id w1
      = (w2, Returned order) →
    order !! "id" = Some order_id →
    track (audit self) "order_created"
      {[ "order_id" := order_id; "total" := total ]} w2 = (w3, r) →
    create_order_path self user_id items w
      {| res := match r with
                | Returned _ => Returned order
                | Raised e => Raised e
                end;
         world := w3;
         calls := [AuthorizePayment user_id total;
                   SaveOrder user_id items total payment_id;
                   Track "order_created"
                     {[ "order_id" := order_id; "total" := total ]}] |}.

(** The position of a collaborator in the sequence of [create_order]:
    gateway, then repository, then audit sink. *)
Definition call_rank (c : call) : nat :=
  match c with
  | AuthorizePayment _ _ => 0
  | SaveOrder _ _ _ _ => 1
  | Track _ _ => 2
  end.

(** ** Text helpers of the browser suite (conftest.py) *)

(** A Python [str] as the sequence of its code points. *)
Abbreviation pystr := (list N).

(** The code points of an ASCII literal. *)
Definition py (s : string) : pystr :=
  Ascii.N_of_ascii <$> String.list_ascii_of_string s.

(** [c.isspace()] for one character.  [str.strip] and the class [\s] of
    [re] on [str] patterns share this test. *)
Definition isspace (c : N) : bool :=
  ((9 <=? c) && (c <=? 13) || (28 <=? c) && (c <=? 32) ||
   (c =? 133) || (c =? 160) || (c =? 5760) ||
   (8192 <=? c) && (c <=? 8202) ||
   (c =? 8232) || (c =? 8233) || (c =? 8239) || (c =? 8287) ||
   (c =? 12288))%N.

(** [s.lstrip()] *)
Fixpoint lstrip (s : pystr) : pystr :=
  match s with
  | [] => []
  | c :: s' => if isspace c then lstrip s' else s
  end.

(** [s.rstrip()] *)
Definition rstrip (s : pystr) : pystr := rev (lstrip (rev s)).

(** [s.strip()] *)
Definition strip (s : pystr) : pystr := rstrip (lstrip s).

(** [RE_SPACES.sub(" ", s)] with [RE_SPACES = re.compile(r"\s+")]: every
    maximal run of whitespace is replaced by one space.  [in_run] tells
    that the previous character belongs to the run being replaced. *)
Fixpoint re_spaces_sub (in_run : bool) (s : pystr) : pystr :=
  match s with
  | [] => []
  | c :: s' =>
      if isspace c then
        if in_run then re_spaces_sub true s' else 32%N :: re_spaces_sub true s'
      else c :: re_spaces_sub false s'
  end.

(** [norm(s)]: [RE_SPACES.sub(" ", (s or "").strip())]; the argument may
    be [None]. *)
Definition norm (s : option pystr) : pystr :=
  re_spaces_sub false (strip (default [] s)).

(** A text without leading or trailing whitespace in which every
    whitespace character is a plain space followed by a character that is
    not whitespace. *)
Definition normalised (t : pystr) : Prop :=
  (∀ c, head t = Some c → isspace c = false) ∧
  (∀ c, last t = Some c → isspace c = false) ∧
  (∀ i c d, t !! i = Some c → t !! S i = Some d → isspace c = true →
            c = 32%N ∧ isspace d = false).

(** ** Page scraping helpers of the browser suite (conftest.py) *)

(** What the helpers below ask of a Playwright page: for a selector, the
    number of elements it matches ([page.locator(s).count()]) and the
    inner texts of those elements ([page.locator(s).all_inner_texts()]).
    Either query may raise.  Each helper asks about any one selector at
    most once, so that the answers of the page are a function of the
    selector. *)
Record Page : Type :=
  { locator_count : string → result nat;
    locator_all_inner_texts : string → result (list pystr) }.

(** The loop of [extract_case_titles], with the list [titles] built so
    far and the set [seen]. *)
Fixpoint extract_case_titles_loop (raw titles : list pystr) (seen : gset pystr)
  : list pystr :=
  match raw with
  | [] => titles
  | t :: raw' =>
      let t := norm (Some t) in
      if bool_decide (t ≠ []) && bool_decide (t ∉ seen)
      then extract_case_titles_loop raw' (titles ++ [t]) ({[ t ]} ∪ seen)
      else extract_case_titles_loop raw' titles seen
  end.

(** [extract_case_titles(page, title_selector)] *)
Definition extract_case_titles (page : Page) (title_selector : string)
  : result (list pystr) :=
  raw ← locator_all_inner_texts page title_selector;
  mret (extract_case_titles_loop raw [] ∅).

(** [next((s for s in candidates if page.locator(s).count() > 0), dflt)]:
    the candidates are tried in turn, and those after the first hit are
    not tried.  An exception raised while counting leaves the generator
    expression, and [next] hands it on. *)
Fixpoint first_with_elements (page : Page) (candidates : list string)
    (dflt : string) : result string :=
  match candidates with
  | [] => Returned dflt
  | s :: rest =>
      match locator_count page s with
      | Returned n =>
          if (0 <? n)%nat then Returned s
          else first_with_elements page rest dflt
      | Raised e => Raised (generator_raised e)
      end
  end.

Definition card_candidates : list string :=
  [ "article.elementor-post";
    ".elementor-posts-container article";
    ".elementor-posts article";
    "article" ].

Definition title_candidates : list string :=
  [ "article.elementor-post .elementor-post__title";
    ".elementor-posts-container .elementor-post__title";
    ".elementor-post__title";
    "article h3" ].

(** [pick_selectors(page)] *)
Definition pick_selectors (page : Page) : result (string * string) :=
  card_sel ← first_with_elements page card_candidates "article";
  title_sel ← first_with_elements page title_candidates "article h3";
  mret (card_sel, title_sel).

#[global] Instance result_fmap : FMap result := fun _ _ f m =>
  match m with
  | Returned a => Returned (f a)
  | Raised e => Raised e
  end.

(** Whether [except Exception] catches an exception: it does, unless the
    class derives from [BaseException] only. *)
Definition is_Exception (e : exn) : bool :=
  match e with
  | BaseOnly _ _ => false
  | _ => true
  end.

(** [try: x = r  except Exception: x = handler] *)
Definition except_Exception {A} (r : result A) (handler : A) : result A :=
  match r with
  | Returned a => Returned a
  | Raised e => if is_Exception e then Returned handler else Raised e
  end.

(** [sep.join(parts)] *)
Fixpoint str_join (sep : pystr) (parts : list pystr) : pystr :=
  match parts with
  | [] => []
  | [x] => x
  | x :: rest => (x ++ sep ++ str_join sep rest)%list
  end.

(** What [_extract_slide_text] asks of a carousel slide: the number of
    headings ([slide.locator("h2, h3, h4").first.count()]), the text of
    the first heading, the texts of the paragraphs
    ([slide.locator("p").all_inner_texts()]) and the text of the whole
    slide ([slide.inner_text()]).  Each is asked at most once. *)
Record Slide : Type :=
  { heading_count : result nat;
    heading_inner_text : result pystr;
    paragraph_inner_texts : result (list pystr);
    slide_inner_text : result pystr }.

(** [" ".join(norm(x) for x in ps if norm(x))] *)
Definition join_paragraphs (ps : list pystr) : pystr :=
  str_join (py " ")
    (List.filter (λ t, negb (bool_decide (t = [])))
       ((λ x, norm (Some x)) <$> ps)).

(** [_extract_slide_text(slide)] *)
Definition _extract_slide_text (slide : Slide) : result (gmap string pystr) :=
  n ← heading_count slide;
  title ← (if (0 <? n)%nat
           then except_Exception
                  ((λ t, norm (Some t)) <$> heading_inner_text slide) []
           else Returned []);
  desc ← except_Exception (join_paragraphs <$> paragraph_inner_texts slide) [];
  if bool_decide (title = []) && bool_decide (desc = []) then
    raw ← except_Exception ((λ t, norm (Some t)) <$> slide_inner_text slide) [];
    mret {[ "title" := []; "description" := []; "raw" := raw ]}
  else
    mret {[ "title" := title; "description" := desc; "raw" := [] ]}.

(** ** Page driving helpers of the browser suite (conftest.py) *)

(** The Playwright operations the helpers modelled below perform, as they
    are logged. *)
Inductive page_call : Type :=
| Goto (url : pystr) (wait_until : string)
| Evaluate (script : string)
| WaitForTimeout (ms : Z)
| WaitForLoadState (state : string)
| Count
| GetAttribute (name : string)
| IsVisible (timeout : Z)
| ScrollIntoViewIfNeeded
| Click (timeout : option Z) (force : bool)
| GetMainCarousel
| GetActiveCarouselBlockInfo
| CarouselNext.

Definition is_click (c : page_call) : bool :=
  match c with Click _ _ => true | _ => false end.
Definition is_goto (c : page_call) : bool :=
  match c with Goto _ _ => true | _ => false end.
Definition is_count (c : page_call) : bool :=
  match c with Count => true | _ => false end.
Definition is_carousel_next (c : page_call) : bool :=
  match c with CarouselNext => true | _ => false end.

(** How many operations of a given kind a log holds. *)
Definition count_ops (p : page_call → bool) (log : list page_call) : nat :=
  length (List.filter p log).

(** A locator: each operation runs against the live page, whose state [W]
    it may change, and either returns or raises. *)
Record Locator (W : Type) : Type :=
  { count : W → W * result nat;
    get_attribute : string → W → W * result (option pystr);
    is_visible : Z → W → W * result bool;
    scroll_into_view_if_needed : W → W * result unit;
    click : option Z → bool → W → W * result unit }.
Arguments count {W} _ _.
Arguments get_attribute {W} _ _ _.
Arguments is_visible {W} _ _ _.
Arguments scroll_into_view_if_needed {W} _ _.
Arguments click {W} _ _ _ _.

(** A live page.  [locator] and [get_by_role] only build locators, they do
    not touch the page. *)
Record LivePage (W : Type) : Type :=
  { goto : pystr → string → W → W * result unit;
    evaluate : string → W → W * result unit;
    wait_for_timeout : Z → W → W * result unit;
    wait_for_load_state : string → W → W * result unit;
    locator : string → Locator W;
    get_by_role : string → string → Locator W }.
Arguments goto {W} _ _ _ _.
Arguments evaluate {W} _ _ _.
Arguments wait_for_timeout {W} _ _ _.
Arguments wait_for_load_state {W} _ _ _.
Arguments locator {W} _ _.
Arguments get_by_role {W} _ _ _.

(** How a run against the page ended, the state it left, and the
    operations it performed, oldest first. *)
Record ran (W A : Type) : Type :=
  { ended : result A;
    final : W;
    logged : list page_call }.
Arguments ended {W A} _.
Arguments final {W A} _.
Arguments logged {W A} _.
Arguments Build_ran {W A} _ _ _.

(** [except PwTimeoutError]: Playwright's own timeout class, which
    conftest.py imports under that name, is [OtherError "PwTimeoutError"]
    here; it is not Python's [TimeoutError]. *)
Definition is_PwTimeoutError (e : exn) : bool :=
  match e with
  | OtherError cls _ => bool_decide (cls = "PwTimeoutError")
  | _ => false
  end.

Section Driving.
Context {W : Type}.

Definition driving (A : Type) : Type := W → ran W A.

Definition driving_ret {A} (a : A) : driving A :=
  λ w, {| ended := Returned a; final := w; logged := [] |}.

Definition driving_bind {A B} (k : A → driving B) (m : driving A) : driving B :=
  λ w,
    let o := m w in
    match ended o with
    | Returned a =>
        let o' := k a (final o) in
        {| ended := ended o'; final := final o';
           logged := logged o ++ logged o' |}
    | Raised e => {| ended := Raised e; final := final o; logged := logged o |}
    end.

#[global] Instance driving_mret : MRet driving := @driving_ret.
#[global] Instance driving_mbind : MBind driving := @driving_bind.

(** One operation on the page: logged, then performed. *)
Definition perform {A} (c : page_call) (f : W → W * result A) : driving A :=
  λ w, let '(w', r) := f w in {| ended := r; final := w'; logged := [c] |}.

(** [try: m  except <catches>: handler] *)
Definition try_except {A} (m : driving A) (catches : exn → bool)
    (handler : driving A) : driving A :=
  λ w,
    let o := m w in
    match ended o with
    | Returned _ => o
    | Raised e =>
        if catches e then
          let o' := handler (final o) in
          {| ended := ended o'; final := final o';
             logged := logged o ++ logged o' |}
        else o
    end.

(** [href or fallback_url] *)
Definition href_or (href : option pystr) (fallback_url : pystr) : pystr :=
  match href with
  | Some (c :: h) => c :: h
  | Some [] | None => fallback_url
  end.

(** [click_or_goto(locator, fallback_url, page, timeout_ms)] *)
Definition click_or_goto (target : Locator W) (fallback_url : pystr)
    (page : LivePage W) (timeout_ms : Z) : driving unit :=
  href ← try_except (perform (GetAttribute "href") (get_attribute target "href"))
            is_Exception (driving_ret (None : option pystr));
  try_except
    (perform (Click (Some timeout_ms) false)
       (click target (Some timeout_ms) false))
    is_PwTimeoutError
    (try_except
       (perform (Click (Some timeout_ms) true)
          (click target (Some timeout_ms) true))
       is_PwTimeoutError
       (perform (Goto (href_or href fallback_url) "domcontentloaded")
          (goto page (href_or href fallback_url) "domcontentloaded"))).

(** The inner loop of [click_load_more_until_end]: [for _ in range(n)]
    polling the number of cards; [true] when the loop is left by [break],
    [false] when it runs out and its [else] branch returns. *)
Fixpoint wait_for_more_cards (page : LivePage W) (card_selector : string)
    (prev : nat) (n : nat) : driving bool :=
  match n with
  | O => driving_ret false
  | S n' =>
      _ ← perform (WaitForTimeout 250) (wait_for_timeout page 250);
      now ← perform Count (count (locator page card_selector));
      if (prev <? now)%nat then driving_ret true
      else wait_for_more_cards page card_selector prev n'
  end.

(** The outer loop of [click_load_more_until_end], [n] rounds left. *)
Fixpoint click_load_more_rounds (page : LivePage W) (load_more : Locator W)
    (card_selector : string) (n : nat) : driving unit :=
  match n with
  | O => driving_ret ()
  | S n' =>
      _ ← perform (Evaluate "window.scrollTo(0, document.body.scrollHeight)")
            (evaluate page "window.scrollTo(0, document.body.scrollHeight)");
      _ ← perform (WaitForTimeout 500) (wait_for_timeout page 500);
      visible ← try_except (perform (IsVisible 1500) (is_visible load_more 1500))
                   is_Exception (driving_ret false);
      if negb visible then driving_ret ()
      else
        prev ← perform Count (count (locator page card_selector));
        _ ← perform ScrollIntoViewIfNeeded (scroll_into_view_if_needed load_more);
        _ ← perform (Click None false) (click load_more None false);
        _ ← perform (WaitForLoadState "networkidle")
              (wait_for_load_state page "networkidle");
        more ← wait_for_more_cards page card_selector prev 32;
        if (more : bool) then click_load_more_rounds page load_more card_selector n'
        else driving_ret ()
  end.

(** [click_load_more_until_end(page, card_selector, max_clicks)] *)
Definition click_load_more_until_end (page : LivePage W)
    (card_selector : string) (max_clicks : Z) : driving unit :=
  let load_more := get_by_role page "button" "carregar\s+mais" in
  click_load_more_rounds page load_more card_selector (Z.to_nat max_clicks).
End Driving.
Arguments driving W A : clear implicits.

(** The helpers of conftest.py that [collect_all_carousel_titles_via_next]
    calls, taken as arbitrary operations on the page: [_get_main_carousel]
    (whose result the loop ignores), [get_active_carousel_block_info] and
    [carousel_next]. *)
Record CarouselHelpers (W : Type) : Type :=
  { _get_main_carousel : W → W * result unit;
    get_active_carousel_block_info : W → W * result (gmap string pystr);
    carousel_next : W → W * result unit }.
Arguments _get_main_carousel {W} _ _.
Arguments get_active_carousel_block_info {W} _ _.
Arguments carousel_next {W} _ _.

Section Carousel.
Context {W : Type}.

(** [get_active_carousel_block_info(page).get("title", "").strip()] *)
Definition active_title (helpers : CarouselHelpers W) : driving W pystr :=
  info ← perform GetActiveCarouselBlockInfo
            (get_active_carousel_block_info helpers);
  mret (strip (default [] (info !! "title"))).

(** The loop of [collect_all_carousel_titles_via_next], [n] steps left:
    an empty title is skipped ([continue]), a title already seen ends the
    loop ([break]). *)
Fixpoint collect_carousel_steps (helpers : CarouselHelpers W)
    (page : LivePage W) (n : nat) (titles : list pystr) (seen : gset pystr)
  : driving W (list pystr) :=
  match n with
  | O => mret titles
  | S n' =>
      _ ← perform CarouselNext (carousel_next helpers);
      _ ← perform (WaitForTimeout 650) (wait_for_timeout page 650);
      t ← active_title helpers;
      if bool_decide (t = []) then
        collect_carousel_steps helpers page n' titles seen
      else if bool_decide (t ∈ seen) then mret titles
      else collect_carousel_steps helpers page n' (titles ++ [t]) ({[ t ]} ∪ seen)
  end.

(** [collect_all_carousel_titles_via_next(page, max_steps)] *)
Definition collect_all_carousel_titles_via_next (helpers : CarouselHelpers W)
    (page : LivePage W) (max_steps : Z) : driving W (list pystr) :=
  _ ← perform GetMainCarousel (_get_main_carousel helpers);
  cur ← active_title helpers;
  if bool_decide (cur = []) then
    collect_carousel_steps helpers page (Z.to_nat max_steps) [] ∅
  else
    collect_carousel_steps helpers page (Z.to_nat max_steps) [cur] {[ cur ]}.
End Carousel.

(** ** Test doubles for the browser suite *)

(** A page that answers every count with [counts] and every request for
    inner texts with [texts]. *)
Definition static_page (counts : string → nat) (texts : list pystr) : Page :=
  {| locator_count := λ s, Returned (counts s);
     locator_all_inner_texts := λ _, Returned texts |}.

(** A locator whose operations always end the same way and leave the page
    as it is. *)
Definition stub_locator (n : result nat) (href : result (option pystr))
    (visible : result bool) (clicked forced : result unit) : Locator unit :=
  {| count := λ w, (w, n);
     get_attribute := λ _ w, (w, href);
     is_visible := λ _ w, (w, visible);
     scroll_into_view_if_needed := λ w, (w, Returned ());
     click := λ _ force w, (w, if force then forced else clicked) |}.

(** A live page all of whose locators are [target]. *)
Definition stub_live_page (target : Locator unit) : LivePage unit :=
  {| goto := λ _ _ w, (w, Returned ());
     evaluate := λ _ w, (w, Returned ());
     wait_for_timeout := λ _ w, (w, Returned ());
     wait_for_load_state := λ _ w, (w, Returned ());
     locator := λ _, target;
     get_by_role := λ _ _, target |}.

Definition pw_timeout : exn :=
  OtherError "PwTimeoutError" "Timeout 3000ms exceeded".

(** ** Tactics *)

(** Unfolds the plumbing of blocking computations. *)
Ltac blocking_simpl :=
  unfold mbind, blocking_mbind, blocking_bind, eval, invoke, raise, mret,
    blocking_mret, blocking_ret; cbn.

(** Enters the body of [create_order] past the emptiness check and the
    computation of the total, given [Hne : items ≠ []] and
    [Htot : order_total items = Returned total]. *)
Ltac enter_create_order Hne Htot :=
  match goal with
  | |- context [create_order _ _ ?items _] =>
      destruct items as [|? ?]; [done|];
      unfold create_order; cbv beta iota; rewrite Htot; blocking_simpl
  end.

(** Unfolds the plumbing of page driving computations. *)
Ltac driving_simpl :=
  unfold mbind, driving_mbind, driving_bind, mret, driving_mret, driving_ret,
    perform, try_except; cbn -[Nat.ltb wait_for_more_cards href_or].

(** ** The scenarios of the test-suites *)

Example order_total_test_success :
  order_total [ {[ "price" := VInt 10; "qty" := VInt 2 ]};
                {[ "price" := VInt 5; "qty" := VInt 1 ]} ] = Returned (VInt 25).
Proof. reflexivity. Qed.

Example order_total_qty_default :
  order_total [ {[ "price" := VInt 10 ]};
                {[ "price" := VInt 5; "qty" := VInt 3 ]} ] = Returned (VInt 25).
Proof. reflexivity. Qed.

Example order_total_missing_price :
  order_total [ {[ "qty" := VInt 2 ]} ] = Raised (KeyError "price").
Proof. reflexivity. Qed.

(** Python's arithmetic where it is not that of the integers. *)
Example order_total_float_price :
  order_total [ {[ "price" := VFloat 0x1.999999999999ap-4; "qty" := VInt 3 ]} ]
  = Returned (VFloat 0x1.3333333333334p-2).
Proof. reflexivity. Qed.

Example float_of_int_rounds_to_even :
  float_of_int (2 ^ 53 + 1) = Returned 0x1p+53%float.
Proof. reflexivity. Qed.

Example py_mul_int_too_large_for_float :
  py_mul (VInt (10 ^ 400)) (VFloat 0x1p-1)
  = Raised (OverflowError "int too large to convert to float").
Proof. vm_compute. reflexivity. Qed.

Example py_mul_str_count_too_large :
  py_mul (VStr "ab") (VInt (10 ^ 30))
  = Raised (OverflowError "cannot fit 'int' into an index-sized integer").
Proof. reflexivity. Qed.

Example py_mul_str_too_long :
  py_mul (VStr "ab") (VInt (2 ^ 62))
  = Raised (OverflowError "repeated string is too long").
Proof. reflexivity. Qed.

Example py_mul_str_negative_count :
  py_mul (VStr "ab") (VInt (-3)) = Returned (VStr EmptyString).
Proof. reflexivity. Qed.

Example py_mul_str_float : py_mul (VStr "ab") (VFloat 0x1p-1) = Raised TypeError.
Proof. reflexivity. Qed.

(** test_success_returns_order_and_calls_dependencies, both suites *)
Example test_success m :
  let items := [item 10 2; item 5 1] in
  run_create_order m
    (stub_service (Returned (approved "pay_123")) (Returned (saved_order 99 25))
       (Returned ()))
    1 items ()
  = {| res := Returned (saved_order 99 25);
       world := ();
       calls := [ AuthorizePayment 1 (VInt 25);
                  SaveOrder 1 items (VInt 25) (VStr "pay_123");
                  Track "order_created" {[ "order_id" := VInt 99; "total" := VInt 25 ]} ] |}.
Proof. destruct m; vm_compute; reflexivity. Qed.

(** test_denied_tracks_denied_and_does_not_save, both suites *)
Example test_denied m :
  run_create_order m
    (stub_service (Returned denied) (Returned (saved_order 0 0)) (Returned ()))
    7 [item 10 1] ()
  = {| res := Raised (PermissionError "payment not approved");
       world := ();
       calls := [ AuthorizePayment 7 (VInt 10);
                  Track "order_denied" {[ "user_id" := VInt 7; "total" := VInt 10 ]} ] |}.
Proof. destruct m; vm_compute; reflexivity. Qed.

(** test_gateway_raises_exception_side_effect, both suites *)
Example test_gateway_raises m :
  run_create_order m
    (stub_service (Raised (TimeoutError "gateway timeout"))
       (Returned (saved_order 0 0)) (Returned ()))
    1 [item 3 2] ()
  = {| res := Raised (TimeoutError "gateway timeout");
       world := ();
       calls := [ AuthorizePayment 1 (VInt 6) ] |}.
Proof. destruct m; vm_compute; reflexivity. Qed.

(** test_repo_raises_exception_side_effect, both suites *)
Example test_repo_raises m :
  let items := [item 4 1] in
  run_create_order m
    (stub_service (Returned (approved "p1")) (Raised (RuntimeError "db down"))
       (Returned ()))
    1 items ()
  = {| res := Raised (RuntimeError "db down");
       world := ();
       calls := [ AuthorizePayment 1 (VInt 4);
                  SaveOrder 1 items (VInt 4) (VStr "p1") ] |}.
Proof. destruct m; vm_compute; reflexivity. Qed.

(** test_multiple_calls_different_gateway_responses, both suites: the
    second invocation starts in the world the first one left. *)
Example test_multiple_calls m :
  let svc := scripted_service m (Returned (saved_order 2 10)) (Returned ()) in
  let first := run_create_order m svc 1 [item 10 1]
                 [Returned denied; Returned (approved "p2")] in
  let second := run_create_order m svc 1 [item 10 1] (world first) in
  res first = Raised (PermissionError "payment not approved") ∧
  res second = Returned (saved_order 2 10) ∧
  calls second = [ AuthorizePayment 1 (VInt 10);
                   SaveOrder 1 [item 10 1] (VInt 10) (VStr "p2");
                   Track "order_created" {[ "order_id" := VInt 2; "total" := VInt 10 ]} ].
Proof. destruct m; vm_compute; repeat split; reflexivity. Qed.

(** A scripted gateway that has run out of answers: the mock's exception
    ends the invocation, of either variant, before anything is saved. *)
Example test_script_exhausted :
  let items := [item 10 1] in
  run_create_order Blocking
    (scripted_service Blocking (Returned (saved_order 2 10)) (Returned ()))
    1 items []
  = {| res := Raised (StopIteration EmptyString); world := [];
       calls := [ AuthorizePayment 1 (VInt 10) ] |}
  ∧
  run_create_order Suspending
    (scripted_service Suspending (Returned (saved_order 2 10)) (Returned ()))
    1 items []
  = {| res := Raised (StopAsyncIteration EmptyString); world := [];
       calls := [ AuthorizePayment 1 (VInt 10) ] |}.
Proof. split; reflexivity. Qed.

(** ** Auxiliary results *)

Lemma line_total_ok (i : dict) :
  item_ok i = true →
  line_total i = Returned (VInt (item_price i * item_quantity i)).
Proof.
  unfold item_ok, line_total, subscript, dict_get, item_price, item_quantity.
  destruct (i !! "price") as [[| p | x | s]|]; try discriminate;
    destruct (i !! "qty") as [[| q | y | t]|]; try discriminate;
    intros _; simpl; f_equal; f_equal; lia.
Qed.

Lemma str_mul_not_int (s : string) (k n : Z) : str_mul s k ≠ Returned (VInt n).
Proof. unfold str_mul. by repeat case_match. Qed.

Lemma line_total_int (i : dict) (n : Z) :
  line_total i = Returned (VInt n) → item_ok i = true.
Proof.
  unfold item_ok, line_total, subscript, dict_get.
  destruct (i !! "price") as [[| p | x | s]|]; simpl; try discriminate;
    destruct (i !! "qty") as [[| q | y | t]|]; simpl; try discriminate;
    try done.
  all: try (intros H; by apply str_mul_not_int in H).
  all: by destruct (float_of_int _).
Qed.

Lemma line_total_price (i : dict) (v : value) :
  line_total i = Returned v → is_Some (i !! "price").
Proof.
  unfold line_total, subscript. destruct (i !! "price"); [eauto|discriminate].
Qed.

Lemma py_sum_ok (items : list dict) : ∀ acc : Z,
  items_ok items = true →
  py_sum (VInt acc) items = Returned (VInt (acc + spec_total items)).
Proof.
  induction items as [|i rest IH]; intros acc Hok; simpl.
  - f_equal; f_equal; lia.
  - simpl in Hok. apply andb_prop in Hok as [Hi Hrest].
    rewrite (line_total_ok i Hi). simpl.
    rewrite (IH _ Hrest). f_equal; f_equal; lia.
Qed.

Lemma order_total_ok (items : list dict) :
  items_ok items = true →
  order_total items = Returned (VInt (spec_total items)).
Proof. intros Hok. unfold order_total. by rewrite py_sum_ok. Qed.

(** Once the running sum is a float it remains one. *)
Lemma py_sum_float (items : list dict) : ∀ (x : float) (v : value),
  py_sum (VFloat x) items = Returned v → ∃ y, v = VFloat y.
Proof.
  induction items as [|i rest IH]; intros x v; simpl.
  - intros [= <-]. eauto.
  - destruct (line_total i) as [[| n | y | s]|e]; simpl; try discriminate.
    + destruct (float_of_int n); simpl; [apply IH|discriminate].
    + apply IH.
Qed.

(** An integer total is only ever computed from integer prices and
    quantities. *)
Lemma py_sum_int (items : list dict) : ∀ acc n : Z,
  py_sum (VInt acc) items = Returned (VInt n) → items_ok items = true.
Proof.
  induction items as [|i rest IH]; intros acc n; simpl; [done|].
  destruct (line_total i) as [[| k | y | s]|e] eqn:Hline; simpl;
    try discriminate.
  - intros Hsum. apply line_total_int in Hline. rewrite Hline. simpl.
    by eapply IH.
  - destruct (float_of_int acc); simpl; [|discriminate].
    intros [z [=]]%py_sum_float.
Qed.

(** A total is only ever computed when every item has a price. *)
Lemma py_sum_prices (items : list dict) : ∀ acc v : value,
  py_sum acc items = Returned v → Forall (λ i, is_Some (i !! "price")) items.
Proof.
  induction items as [|i rest IH]; intros acc v; simpl; [by constructor|].
  destruct (line_total i) as [t|e] eqn:Hline; simpl; [|discriminate].
  destruct (py_add acc t) as [acc'|e]; simpl; [|discriminate].
  intros Hsum. constructor; [by eapply line_total_price|by eapply IH].
Qed.

Lemma order_total_int (items : list dict) (n : Z) :
  order_total items = Returned (VInt n) →
  items_ok items = true ∧ n = spec_total items.
Proof.
  intros Hn. assert (items_ok items = true) as Hok by by eapply py_sum_int.
  split; [done|]. rewrite (order_total_ok _ Hok) in Hn. congruence.
Qed.

Lemma order_total_returned (items : list dict) (v : value) :
  order_total items = Returned v →
  items_ok items = true → v = VInt (spec_total items).
Proof. intros Hv Hok. rewrite (order_total_ok _ Hok) in Hv. congruence. Qed.



(** [d.get("status")] is ["approved"] exactly when the key is there with
    that value. *)
Lemma status_approved_iff (auth : dict) :
  dict_get auth "status" VNone = VStr "approved" ↔
  auth !! "status" = Some (VStr "approved").
Proof.
  unfold dict_get. destruct (auth !! "status") as [v|]; simpl; split;
    intros H; try discriminate; congruence.
Qed.

Section Morphism.
Context {W : Type}.

(** The event loop turns sequencing of coroutines into sequencing of
    blocking computations. *)
Lemma run_until_complete_bind {A B} (m : OrderServiceAsync.coroutine W A)
    (k : A → OrderServiceAsync.coroutine W B) :
  ∀ w : W,
    OrderServiceAsync.run_until_complete (m ≫= k) w
    = blocking_bind (λ a, OrderServiceAsync.run_until_complete (k a))
        (OrderServiceAsync.run_until_complete m) w.
Proof.
  induction m as [[a|e]|X a resume IH]; intros w.
  - blocking_simpl.
    by destruct (OrderServiceAsync.run_until_complete (k a) w).
  - reflexivity.
  - unfold blocking_bind. cbn.
    destruct (OrderServiceAsync.completion a w) as [w' r].
    rewrite (IH r w'). unfold blocking_bind. cbn.
    by destruct (res (OrderServiceAsync.run_until_complete (resume r) w')).
Qed.

(** An [await] of a collaborator call is the blocking call. *)
Lemma run_until_complete_await {X} (c : call) (f : W → W * result X) (w : W) :
  OrderServiceAsync.run_until_complete
    (OrderServiceAsync.await (OrderServiceAsync.async_call c f)) w
  = invoke c f w.
Proof. unfold invoke. cbn. by destruct (f w). Qed.

(** Leaving the body of an [async def] changes nothing but, possibly, the
    exception. *)
Lemma run_until_complete_async_def {A} (body : OrderServiceAsync.coroutine W A) :
  ∀ w : W,
    OrderServiceAsync.run_until_complete (OrderServiceAsync.async_def body) w
    = outcome_surfaced Suspending (OrderServiceAsync.run_until_complete body w).
Proof.
  induction body as [[a|e]|X a resume IH]; intros w; [reflexivity..|].
  cbn. destruct (OrderServiceAsync.completion a w) as [w' r].
  by rewrite (IH r w').
Qed.
End Morphism.

Section Paths.
Context {W : Type} (self : OrderService W).

(** Driving the coroutine to completion is calling the blocking function,
    up to the exception that leaves the coroutine. *)
Lemma suspending_eq_blocking (user_id : Z) (items : list dict) (w : W) :
  OrderServiceAsync.run_until_complete
    (OrderServiceAsync.create_order self user_id items) w
  = outcome_surfaced Suspending (create_order self user_id items w).
Proof.
  unfold OrderServiceAsync.create_order.
  rewrite run_until_complete_async_def. f_equal.
  destruct items as [|i rest]; [reflexivity|].
  unfold create_order.
  cbv beta iota.
  destruct (order_total (i :: rest)) as [total|e]; [|reflexivity].
  generalize (i :: rest); intros items.
  blocking_simpl.
  destruct (authorize_payment _ _ _ _) as [w1 [auth|e]]; [|reflexivity].
  cbn. case_bool_decide; cbn.
  - destruct (track _ _ _ _) as [w2 [[]|e]]; reflexivity.
  - destruct (subscript auth "payment_id") as [pid|e]; [|reflexivity]. cbn.
    destruct (save_order _ _ _ _ _ _) as [w2 [order|e]]; [|reflexivity]. cbn.
    destruct (subscript order "id") as [oid|e]; [|reflexivity]. cbn.
    destruct (track _ _ _ _) as [w3 [[]|e]]; reflexivity.
Qed.

Lemma run_create_order_surfaced (m : mode) (user_id : Z) (items : list dict)
    (w : W) :
  run_create_order m self user_id items w
  = outcome_surfaced m (create_order self user_id items w).
Proof.
  destruct m; [|apply suspending_eq_blocking].
  simpl. by destruct (create_order self user_id items w) as [[?|?] ? ?].
Qed.

Lemma run_create_order_calls (m : mode) (user_id : Z) (items : list dict)
    (w : W) :
  calls (run_create_order m self user_id items w)
  = calls (create_order self user_id items w).
Proof. by rewrite run_create_order_surfaced. Qed.

Lemma run_create_order_returned (m : mode) (user_id : Z) (items : list dict)
    (w : W) (order : dict) :
  res (run_create_order m self user_id items w) = Returned order ↔
  res (create_order self user_id items w) = Returned order.
Proof.
  rewrite run_create_order_surfaced. simpl.
  by destruct (res (create_order self user_id items w)).
Qed.

(** *** The paths through [create_order], one lemma each *)

Lemma path_empty (user_id : Z) (w : W) :
  create_order self user_id [] w
  = {| res := Raised (ValueError "items cannot be empty"); world := w; calls := [] |}.
Proof. reflexivity. Qed.

Lemma path_total_raises (user_id : Z) (items : list dict) (e : exn) (w : W) :
  items ≠ [] →
  order_total items = Raised e →
  create_order self user_id items w
  = {| res := Raised e; world := w; calls := [] |}.
Proof. intros Hne Htot. by enter_create_order Hne Htot. Qed.

Lemma path_gateway_raises (user_id : Z) (items : list dict) (total : value)
    (e : exn) (w w1 : W) :
  items ≠ [] →
  order_total items = Returned total →
  authorize_payment (gateway self) user_id total w = (w1, Raised e) →
  create_order self user_id items w
  = {| res := Raised e; world := w1; calls := [AuthorizePayment user_id total] |}.
Proof.
  intros Hne Htot Hauth. enter_create_order Hne Htot. by rewrite Hauth.
Qed.

Lemma path_denied (user_id : Z) (items : list dict) (total : value)
    (auth : dict) (r : result unit) (w w1 w2 : W) :
  let payload : dict := {[ "user_id" := VInt user_id; "total" := total ]} in
  items ≠ [] →
  order_total items = Returned total →
  authorize_payment (gateway self) user_id total w = (w1, Returned auth) →
  dict_get auth "status" VNone ≠ VStr "approved" →
  track (audit self) "order_denied" payload w1 = (w2, r) →
  create_order self user_id items w
  = {| res := match r with
              | Returned _ => Raised (PermissionError "payment not approved")
              | Raised e => Raised e
              end;
       world := w2;
       calls := [AuthorizePayment user_id total; Track "order_denied" payload] |}.
Proof.
  intros payload Hne Htot Hauth Hstatus Htrack. enter_create_order Hne Htot.
  rewrite Hauth. cbn. rewrite bool_decide_eq_true_2 by done. cbn.
  fold payload. rewrite Htrack. by destruct r.
Qed.

Lemma path_no_payment_id (user_id : Z) (items : list dict) (total : value)
    (auth : dict) (w w1 : W) :
  items ≠ [] →
  order_total items = Returned total →
  authorize_payment (gateway self) user_id total w = (w1, Returned auth) →
  dict_get auth "status" VNone = VStr "approved" →
  auth !! "payment_id" = None →
  create_order self user_id items w
  = {| res := Raised (KeyError "payment_id"); world := w1;
       calls := [AuthorizePayment user_id total] |}.
Proof.
  intros Hne Htot Hauth Hstatus Hpid. enter_create_order Hne Htot.
  rewrite Hauth. cbn. rewrite bool_decide_eq_false_2 by (intros H; by apply H).
  unfold subscript. by rewrite Hpid.
Qed.

Lemma path_repo_raises (user_id : Z) (items : list dict) (total : value)
    (auth : dict) (payment_id : value) (e : exn) (w w1 w2 : W) :
  items ≠ [] →
  order_total items = Returned total →
  authorize_payment (gateway self) user_id total w = (w1, Returned auth) →
  dict_get auth "status" VNone = VStr "approved" →
  auth !! "payment_id" = Some payment_id →
  save_order (repo self) user_id items total payment_id w1 = (w2, Raised e) →
  create_order self user_id items w
  = {| res := Raised e; world := w2;
       calls := [AuthorizePayment user_id total;
                 SaveOrder user_id items total payment_id] |}.
Proof.
  intros Hne Htot Hauth Hstatus Hpid Hsave. enter_create_order Hne Htot.
  rewrite Hauth. cbn. rewrite bool_decide_eq_false_2 by (intros H; by apply H).
  unfold subscript. rewrite Hpid. cbn. by rewrite Hsave.
Qed.

Lemma path_no_order_id (user_id : Z) (items : list dict) (total : value)
    (auth : dict) (payment_id : value) (order : dict) (w w1 w2 : W) :
  items ≠ [] →
  order_total items = Returned total →
  authorize_payment (gateway self) user_id total w = (w1, Returned auth) →
  dict_get auth "status" VNone = VStr "approved" →
  auth !! "payment_id" = Some payment_id →
  save_order (repo self) user_id items total payment_id w1 = (w2, Returned order) →
  order !! "id" = None →
  create_order self user_id items w
  = {| res := Raised (KeyError "id"); world := w2;
       calls := [AuthorizePayment user_id total;
                 SaveOrder user_id items total payment_id] |}.
Proof.
  intros Hne Htot Hauth Hstatus Hpid Hsave Hid. enter_create_order Hne Htot.
  rewrite Hauth. cbn. rewrite bool_decide_eq_false_2 by (intros H; by apply H).
  unfold subscript. rewrite Hpid. cbn. rewrite Hsave. cbn. by rewrite Hid.
Qed.

Lemma path_created (user_id : Z) (items : list dict) (total : value)
    (auth : dict) (payment_id : value) (order : dict) (order_id : value)
    (r : result unit) (w w1 w2 w3 : W) :
  let payload : dict := {[ "order_id" := order_id; "total" := total ]} in
  items ≠ [] →
  order_total items = Returned total →
  authorize_payment (gateway self) user_id total w = (w1, Returned auth) →
  dict_get auth "status" VNone = VStr "approved" →
  auth !! "payment_id" = Some payment_id →
  save_order (repo self) user_id items total payment_id w1 = (w2, Returned order) →
  order !! "id" = Some order_id →
  track (audit self) "order_created" payload w2 = (w3, r) →
  create_order self user_id items w
  = {| res := match r with
              | Returned _ => Returned order
              | Raised e => Raised e
              end;
       world := w3;
       calls := [AuthorizePayment user_id total;
                 SaveOrder user_id items total payment_id;
                 Track "order_created" payload] |}.
Proof.
  intros payload Hne Htot Hauth Hstatus Hpid Hsave Hid Htrack.
  enter_create_order Hne Htot.
  rewrite Hauth. cbn. rewrite bool_decide_eq_false_2 by (intros H; by apply H).
  unfold subscript. rewrite Hpid. cbn. rewrite Hsave. cbn. rewrite Hid. cbn.
  fold payload. rewrite Htrack. by destruct r.
Qed.

(** Whatever the collaborators do, the calls of one invocation are one of
    four sequences. *)
Lemma calls_cases (user_id : Z) (items : list dict) (total : value) (w : W) :
  items ≠ [] →
  order_total items = Returned total →
  let log := calls (create_order self user_id items w) in
  log = [AuthorizePayment user_id total] ∨
  log = [AuthorizePayment user_id total;
         Track "order_denied" {[ "user_id" := VInt user_id; "total" := total ]}] ∨
  (∃ payment_id,
     log = [AuthorizePayment user_id total;
            SaveOrder user_id items total payment_id]) ∨
  (∃ payment_id order_id,
     log = [AuthorizePayment user_id total;
            SaveOrder user_id items total payment_id;
            Track "order_created" {[ "order_id" := order_id; "total" := total ]}]).
Proof.
  intros Hne Htot.
  destruct (authorize_payment (gateway self) user_id total w)
    as [w1 [auth|e]] eqn:Hauth.
  2: { left. by erewrite path_gateway_raises. }
  destruct (decide (dict_get auth "status" VNone = VStr "approved")) as [Hs|Hs].
  2: { right; left.
       destruct (track (audit self) "order_denied"
                   {[ "user_id" := VInt user_id; "total" := total ]} w1)
         as [w2 r] eqn:Htrack.
       by erewrite path_denied. }
  destruct (auth !! "payment_id") as [payment_id|] eqn:Hpid.
  2: { left. by erewrite path_no_payment_id. }
  destruct (save_order (repo self) user_id items total payment_id w1)
    as [w2 [order|e]] eqn:Hsave.
  2: { right; right; left. exists payment_id. by erewrite path_repo_raises. }
  destruct (order !! "id") as [order_id|] eqn:Hid.
  2: { right; right; left. exists payment_id. by erewrite path_no_order_id. }
  destruct (track (audit self) "order_created"
              {[ "order_id" := order_id; "total" := total ]} w2)
    as [w3 r] eqn:Htrack.
  right; right; right. exists payment_id, order_id. by erewrite path_created.
Qed.

(** ** The stated properties *)




(** C4.  With an empty item list [create_order] raises
    [ValueError "items cannot be empty"] at once: no collaborator is
    called and the world is left as it was. *)
Theorem empty_items_rejected (m : mode) (user_id : Z) (w : W) :
  run_create_order m self user_id [] w
  = {| res := Raised (ValueError "items cannot be empty");
       world := w;
       calls := [] |}.
Proof. rewrite run_create_order_surfaced, path_empty. by destruct m. Qed.



(** C7.  The two variants are equivalent up to the exception
    that leaves a coroutine: for every user id, every item list and every
    behaviour of the collaborators, started in the same world, the
    suspending variant driven to completion has made the same calls with
    the same arguments in the same order as the blocking variant, leaves
    the same world, and ends the same way (same returned order, same
    exception) unless the blocking variant ends with a [StopIteration],
    in place of which the suspending one ends with [RuntimeError
    "coroutine raised StopIteration"]. *)
Theorem variants_equivalent (user_id : Z) (items : list dict) (w : W) :
  let a := OrderServiceAsync.run_until_complete
             (OrderServiceAsync.create_order self user_id items) w in
  let s := create_order self user_id items w in
  calls a = calls s ∧
  world a = world s ∧
  res a = match res s with
          | Returned order => Returned order
          | Raised e => Raised (coroutine_raised e)
          end ∧
  ((∀ msg, res s ≠ Raised (StopIteration msg)) → a = s).
Proof.
  intros a s. unfold a. rewrite suspending_eq_blocking. fold s.
  split_and!; try done.
  intros Hstop. unfold outcome_surfaced.
  destruct s as [[order|e] w' log]; simpl in *; [done|].
  destruct e; try done. by destruct (Hstop msg).
Qed.

(** C8.  For a non-empty item list and whatever the
    collaborators do, one invocation makes at most one call to the
    gateway, at most one to the repository and at most one to the audit
    sink.  The gateway is called, once, exactly when the total can be
    computed, as it can for integer prices and quantities; when it cannot
    (an item without a price, say) no call is made at all. *)
Theorem one_authorization_at_most_one_save_and_track (m : mode) (user_id : Z)
    (items : list dict) (w : W) :
  items ≠ [] →
  let log := calls (run_create_order m self user_id items w) in
  ((count_calls is_authorize log ≤ 1)%nat ∧
   (count_calls is_save log ≤ 1)%nat ∧
   (count_calls is_track log ≤ 1)%nat) ∧
  (count_calls is_authorize log = 1%nat ↔
   ∃ total, order_total items = Returned total) ∧
  (items_ok items = true → count_calls is_authorize log = 1%nat) ∧
  ((∃ e, order_total items = Raised e) → log = []).
Proof.
  intros Hne log. unfold log. rewrite run_create_order_calls.
  destruct (order_total items) as [total|e] eqn:Htot.
  - destruct (calls_cases user_id items _ w Hne Htot)
      as [-> | [-> | [[pid ->] | (pid & oid & ->)]]]; cbn;
      (split_and!; [lia..| |done|by intros [? ?]]);
      (split; [eauto|done]).
  - rewrite (path_total_raises user_id items e w Hne Htot). cbn.
    split_and!; [lia..| | |done].
    + split; [done|]. by intros [? ?].
    + intros Hok. rewrite (order_total_ok _ Hok) in Htot. done.
Qed.



End Paths.

(** ** The properties at concrete inputs *)









(** A gateway that raises [StopIteration]: the blocking variant ends with
    that exception, the suspending one with a [RuntimeError]. *)
Lemma variants_differ_on_stop_iteration :
  let svc := stub_service (Raised (StopIteration EmptyString))
               (Returned (saved_order 0 0)) (Returned ()) in
  res (create_order svc 1 [item 3 2] ())
  = Raised (StopIteration EmptyString) ∧
  res (OrderServiceAsync.run_until_complete
         (OrderServiceAsync.create_order svc 1 [item 3 2]) ())
  = Raised (RuntimeError "coroutine raised StopIteration").
Proof. split; reflexivity. Qed.

(** A non-empty list whose only item has no price: the gateway is not
    called. *)
Lemma no_authorization_without_price :
  let items : list dict := [ {[ "qty" := VInt 2 ]} ] in
  let o := run_create_order Blocking
             (stub_service (Returned (approved "p1"))
                (Returned (saved_order 1 4)) (Returned ()))
             1 items () in
  o = {| res := Raised (KeyError "price"); world := (); calls := [] |} ∧
  count_calls is_authorize (calls o) = 0%nat.
Proof. split; reflexivity. Qed.

(** Call counts on the success path. *)
Lemma call_counts_witness :
  let items := [item 2 2] in
  let log := calls (run_create_order Suspending
                      (stub_service (Returned (approved "p1"))
                         (Returned (saved_order 1 4)) (Returned ()))
                      1 items ()) in
  ((count_calls is_authorize log ≤ 1)%nat ∧
   (count_calls is_save log ≤ 1)%nat ∧
   (count_calls is_track log ≤ 1)%nat) ∧
  (count_calls is_authorize log = 1%nat ↔
   ∃ total, order_total items = Returned total) ∧
  (items_ok items = true → count_calls is_authorize log = 1%nat) ∧
  ((∃ e, order_total items = Raised e) → log = []).
Proof.
  apply (one_authorization_at_most_one_save_and_track
           (stub_service (Returned (approved "p1"))
              (Returned (saved_order 1 4)) (Returned ()))
           Suspending 1 [item 2 2] ()).
  discriminate.
Defined.




(** ** Further properties of [create_order] *)

(** *** The total *)

Lemma spec_total_app (xs ys : list dict) :
  spec_total (xs ++ ys) = spec_total xs + spec_total ys.
Proof. induction xs as [|x xs IH]; simpl; lia. Qed.

Lemma items_ok_app (xs ys : list dict) :
  items_ok (xs ++ ys) = items_ok xs && items_ok ys.
Proof. unfold items_ok. apply forallb_app. Qed.

Lemma spec_total_perm (xs ys : list dict) :
  xs ≡ₚ ys → spec_total xs = spec_total ys.
Proof. induction 1; simpl; lia. Qed.

Lemma items_ok_perm (xs ys : list dict) :
  xs ≡ₚ ys → items_ok xs = items_ok ys.
Proof.
  unfold items_ok. induction 1; simpl; try congruence.
  destruct (item_ok x), (item_ok y); done.
Qed.

Lemma line_total_default_qty (i : dict) :
  i !! "qty" = None →
  line_total (<["qty" := VInt 1]> i) = line_total i.
Proof.
  intros Hqty. unfold line_total, subscript, dict_get.
  rewrite (lookup_insert_ne i "qty" "price") by discriminate.
  by rewrite lookup_insert_eq, Hqty.
Qed.

Lemma py_sum_app (xs ys : list dict) : ∀ acc : value,
  py_sum acc (xs ++ ys) = (acc' ← py_sum acc xs; py_sum acc' ys).
Proof.
  induction xs as [|x xs IH]; intros acc; simpl; [done|].
  destruct (line_total x) as [v|e]; simpl; [|done].
  destruct (py_add acc v) as [acc'|e]; simpl; [|done]. apply IH.
Qed.

Lemma order_total_no_price (good rest : list dict) (bad : dict) (acc : value) :
  order_total good = Returned acc →
  bad !! "price" = None →
  order_total (good ++ bad :: rest) = Raised (KeyError "price").
Proof.
  unfold order_total. intros Hgood Hbad. rewrite py_sum_app, Hgood. simpl.
  unfold line_total, subscript. by rewrite Hbad.
Qed.

Section Inversion.
Context {W : Type} (self : OrderService W).

(** The blocking [create_order] follows one of the eight paths. *)
Lemma create_order_follows_path (user_id : Z) (items : list dict) (w : W) :
  create_order_path self user_id items w (create_order self user_id items w).
Proof.
  destruct (decide (items = [])) as [->|Hne]; [by apply PathEmpty|].
  destruct (order_total items) as [total|e] eqn:Htot.
  2: { erewrite path_total_raises by done. by apply PathTotalRaises. }
  destruct (authorize_payment (gateway self) user_id total w)
    as [w1 [auth|e]] eqn:Hauth.
  2: { erewrite path_gateway_raises by done. by eapply PathGatewayRaises. }
  destruct (decide (dict_get auth "status" VNone = VStr "approved")) as [Hs|Hs].
  2: { destruct (track (audit self) "order_denied"
                   {[ "user_id" := VInt user_id; "total" := total ]} w1)
         as [w2 r] eqn:Htrack.
       erewrite path_denied by done. eapply PathDenied; try done.
       by rewrite <- status_approved_iff. }
  pose proof Hs as Hs'. apply status_approved_iff in Hs'.
  destruct (auth !! "payment_id") as [payment_id|] eqn:Hpid.
  2: { erewrite path_no_payment_id by done. by eapply PathNoPaymentId. }
  destruct (save_order (repo self) user_id items total payment_id w1)
    as [w2 [order|e]] eqn:Hsave.
  2: { erewrite path_repo_raises by done. by eapply PathRepoRaises. }
  destruct (order !! "id") as [order_id|] eqn:Hid.
  2: { erewrite path_no_order_id by done. by eapply PathNoOrderId. }
  destruct (track (audit self) "order_created"
              {[ "order_id" := order_id; "total" := total ]} w2)
    as [w3 r] eqn:Htrack.
  erewrite path_created by done. by eapply PathCreated.
Qed.

(** So does the suspending one, up to the exception that leaves it. *)
Lemma run_create_order_follows_path (m : mode) (user_id : Z)
    (items : list dict) (w : W) :
  ∃ o, create_order_path self user_id items w o ∧
       run_create_order m self user_id items w = outcome_surfaced m o.
Proof.
  exists (create_order self user_id items w).
  split; [apply create_order_follows_path|apply run_create_order_surfaced].
Qed.
End Inversion.

Section Further.
Context {W : Type} (self : OrderService W).

(** X1.  An item without a price stops the invocation before any
    collaborator is called: when the total of the items before it can be
    computed, [create_order] raises [KeyError "price"], makes no call and
    leaves the world as it was.  The items after it are not examined. *)
Theorem item_without_price_fails_before_any_call (m : mode) (user_id : Z)
    (good rest : list dict) (bad : dict) (acc : value) (w : W) :
  order_total good = Returned acc →
  bad !! "price" = None →
  run_create_order m self user_id (good ++ bad :: rest) w
  = {| res := Raised (KeyError "price");
       world := w;
       calls := [] |}.
Proof.
  intros Hgood Hbad. rewrite run_create_order_surfaced.
  rewrite (path_total_raises self user_id (good ++ bad :: rest)
             (KeyError "price") w);
    [by destruct m|by destruct good|by eapply order_total_no_price].
Qed.



(** X4.  [create_order] returns an order only at the end of the full
    sequence: the item list was not empty and every item had a price, the
    gateway approved the total, the repository returned that very order
    for the approved payment and that total, and the "order_created"
    event for it was accepted by the audit sink.  The total is the exact
    sum when the prices and quantities are integers. *)
Theorem returned_order_was_saved_and_audited (m : mode) (user_id : Z)
    (items : list dict) (order : dict) (w : W) :
  res (run_create_order m self user_id items w) = Returned order →
  ∃ (total : value) (auth : dict) (payment_id order_id : value)
    (w1 w2 w3 : W),
    items ≠ [] ∧
    Forall (λ i, is_Some (i !! "price")) items ∧
    (items_ok items = true → total = VInt (spec_total items)) ∧
    authorize_payment (gateway self) user_id total w = (w1, Returned auth) ∧
    auth !! "status" = Some (VStr "approved") ∧
    auth !! "payment_id" = Some payment_id ∧
    save_order (repo self) user_id items total payment_id w1
      = (w2, Returned order) ∧
    order !! "id" = Some order_id ∧
    track (audit self) "order_created"
      {[ "order_id" := order_id; "total" := total ]} w2 = (w3, Returned ()) ∧
    run_create_order m self user_id items w
    = {| res := Returned order;
         world := w3;
         calls := [AuthorizePayment user_id total;
                   SaveOrder user_id items total payment_id;
                   Track "order_created"
                     {[ "order_id" := order_id; "total" := total ]}] |}.
Proof.
  intros Hres.
  destruct (run_create_order_follows_path self m user_id items w)
    as (o & Hp & Ho).
  rewrite Ho in *. clear Ho.
  destruct Hp as [| | | ? ? [] | | | | tot auth pid ord oid [[]|] w1 w2 w3
                     Hne Htot Hauth Hstatus Hpid Hsave Hid Htrack];
    simpl in Hres; try discriminate.
  injection Hres as ->.
  exists tot, auth, pid, oid, w1, w2, w3.
  split_and!; try done.
  - by eapply py_sum_prices.
  - by apply order_total_returned.
Qed.

(** X5.  The repository is only ever called for a payment the gateway
    approved: any [save_order] call of an invocation carries the caller's
    user id and items, the total the gateway was asked to authorize, and
    the payment id of the authorization result, whose status is
    "approved".  That total is the exact sum when the prices and
    quantities are integers. *)
Theorem save_only_after_approval (m : mode) (user_id : Z) (items : list dict)
    (w : W) (u : Z) (its : list dict) (tot pid : value) :
  let log := calls (run_create_order m self user_id items w) in
  SaveOrder u its tot pid ∈ log →
  u = user_id ∧ its = items ∧
  (items_ok items = true → tot = VInt (spec_total items)) ∧
  head log = Some (AuthorizePayment user_id tot) ∧
  ∃ (auth : dict) (w1 : W),
    authorize_payment (gateway self) user_id tot w = (w1, Returned auth) ∧
    auth !! "status" = Some (VStr "approved") ∧
    auth !! "payment_id" = Some pid.
Proof.
  intros log Hin. unfold log in *. clear log.
  destruct (run_create_order_follows_path self m user_id items w)
    as (o & Hp & Ho).
  rewrite Ho in *. clear Ho.
  destruct Hp as [| | | | |total auth payment_id e w1 w2 Hne Htot Hauth
                   |total auth payment_id order w1 w2 Hne Htot Hauth
                   |total auth payment_id order oid r w1 w2 w3 Hne Htot Hauth];
    simpl in Hin; set_unfold in Hin; destruct_or?; simplify_eq;
    (split_and!; [done|done|by apply order_total_returned|done|eauto 10]).
Qed.

(** X6.  The gateway is only ever asked about a non-empty item list in
    which every item has a price, and for the caller's user id; the
    amount is the exact sum of price × quantity when the prices and
    quantities are integers. *)
Theorem authorization_only_for_computed_total (m : mode) (user_id : Z)
    (items : list dict) (w : W) (u : Z) (amount : value) :
  AuthorizePayment u amount ∈ calls (run_create_order m self user_id items w) →
  u = user_id ∧ items ≠ [] ∧
  Forall (λ i, is_Some (i !! "price")) items ∧
  (items_ok items = true → amount = VInt (spec_total items)).
Proof.
  intros Hin.
  destruct (run_create_order_follows_path self m user_id items w)
    as (o & Hp & Ho).
  rewrite Ho in *. clear Ho.
  destruct Hp as [| |total ? ? Hne Htot|total ? ? ? ? Hne Htot
                   |total ? ? Hne Htot|total ? ? ? ? ? Hne Htot
                   |total ? ? ? ? ? Hne Htot|total ? ? ? ? ? ? ? ? Hne Htot];
    simpl in Hin; set_unfold in Hin; destruct_or?; simplify_eq;
    (split_and!; [done|done|by eapply py_sum_prices
                 |by apply order_total_returned]).
Qed.

(** X7.  An audit event tells what happened.  "order_denied" is emitted
    only when the gateway answered with a status other than "approved",
    and then nothing is saved; "order_created" is emitted only after the
    repository returned an order, and carries the id of that order.  No
    other event is ever emitted.  Either event carries the total the
    gateway was asked to authorize, which is the exact sum when the
    prices and quantities are integers. *)
Theorem audit_event_tells_what_happened (m : mode) (user_id : Z)
    (items : list dict) (w : W) (event : string) (payload : dict) :
  let o := run_create_order m self user_id items w in
  Track event payload ∈ calls o →
  ∃ total : value,
    head (calls o) = Some (AuthorizePayment user_id total) ∧
    (items_ok items = true → total = VInt (spec_total items)) ∧
    ((event = "order_denied" ∧
      payload = {[ "user_id" := VInt user_id; "total" := total ]} ∧
      count_calls is_save (calls o) = 0%nat ∧
      ∃ (auth : dict) (w1 : W),
        authorize_payment (gateway self) user_id total w = (w1, Returned auth) ∧
        auth !! "status" ≠ Some (VStr "approved"))
     ∨
     (event = "order_created" ∧
      ∃ (payment_id : value) (order : dict) (order_id : value) (w1 w2 : W),
        SaveOrder user_id items total payment_id ∈ calls o ∧
        save_order (repo self) user_id items total payment_id w1
          = (w2, Returned order) ∧
        order !! "id" = Some order_id ∧
        payload = {[ "order_id" := order_id; "total" := total ]})).
Proof.
  intros o Hin. unfold o in *. clear o.
  destruct (run_create_order_follows_path self m user_id items w)
    as (o & Hp & Ho).
  rewrite Ho in *. clear Ho.
  destruct Hp as [| | |tot auth r w1 w2 Hne Htot Hauth Hstatus Htrack | | |
                   |tot auth pid order oid r w1 w2 w3 Hne Htot Hauth Hstatus
                      Hpid Hsave Hid Htrack];
    simpl in Hin; set_unfold in Hin; destruct_or?; simplify_eq;
    exists tot; (split; [done|]); (split; [by apply order_total_returned|]).
  - left. repeat split; eauto.
  - right. split; [done|]. exists pid, order, oid, w1, w2.
    repeat split; try done. simpl. set_solver.
Qed.

(** X8.  For every item list and whatever the collaborators do, the calls
    of one invocation come in the order gateway, repository, audit sink,
    with no collaborator called twice; and if any call is made at all, the
    first one is the authorization. *)
Theorem calls_in_fixed_order (m : mode) (user_id : Z) (items : list dict)
    (w : W) :
  let log := calls (run_create_order m self user_id items w) in
  StronglySorted (λ c c', (call_rank c < call_rank c')%nat) log ∧
  (log ≠ [] → ∃ amount, head log = Some (AuthorizePayment user_id amount)).
Proof.
  intros log. unfold log. clear log.
  rewrite run_create_order_calls.
  pose proof (create_order_follows_path self user_id items w) as Hp.
  destruct Hp; simpl; (split; [|intros Hlog; try done; eauto]);
    repeat (constructor; simpl; try lia).
Qed.

End Further.

(** X9.  With integer prices and quantities the total does not depend on
    the order of the items: reordering such an item list leaves it
    unchanged. *)
Theorem order_total_permutation (xs ys : list dict) :
  xs ≡ₚ ys →
  items_ok xs = true →
  order_total ys = order_total xs.
Proof.
  intros Hperm Hok.
  rewrite (order_total_ok xs Hok).
  rewrite (order_total_ok ys) by by rewrite <- (items_ok_perm xs ys).
  by rewrite (spec_total_perm xs ys).
Qed.

(** X10.  The total of two item lists put together is the sum of their
    totals. *)
Theorem order_total_app (xs ys : list dict) (a b : Z) :
  order_total xs = Returned (VInt a) →
  order_total ys = Returned (VInt b) →
  order_total (xs ++ ys) = Returned (VInt (a + b)).
Proof.
  intros Hxs Hys.
  apply order_total_int in Hxs as [Hx ->].
  apply order_total_int in Hys as [Hy ->].
  rewrite order_total_ok by (rewrite items_ok_app, Hx, Hy; done).
  by rewrite spec_total_app.
Qed.

(** X11.  Leaving the quantity out is the same as giving the quantity 1:
    for any item without a "qty" entry, anywhere in any item list, adding
    ["qty": 1] to it changes neither the total nor, when the total cannot
    be computed, the exception raised. *)
Theorem order_total_default_qty (xs ys : list dict) (i : dict) :
  i !! "qty" = None →
  order_total (xs ++ <["qty" := VInt 1]> i :: ys) = order_total (xs ++ i :: ys).
Proof.
  intros Hqty. unfold order_total. rewrite !py_sum_app.
  destruct (py_sum (VInt 0) xs) as [acc|e]; simpl; [|done].
  by rewrite line_total_default_qty.
Qed.

(** *** The further properties at concrete inputs *)

(** The second item has no price; the first has a float price, and the
    third, whose price is a string, is not reached. *)
Lemma item_without_price_witness :
  run_create_order Suspending
    (stub_service (Returned (approved "p1")) (Returned (saved_order 1 10))
       (Returned ()))
    1 ([ {[ "price" := VFloat 0x1.999999999999ap-4; "qty" := VInt 3 ]} ]
       ++ {[ "qty" := VInt 2 ]} :: [ {[ "price" := VStr "free" ]} ]) ()
  = {| res := Raised (KeyError "price"); world := (); calls := [] |}.
Proof.
  refine (item_without_price_fails_before_any_call
            (stub_service (Returned (approved "p1"))
               (Returned (saved_order 1 10)) (Returned ()))
            Suspending 1
            [ {[ "price" := VFloat 0x1.999999999999ap-4; "qty" := VInt 3 ]} ]
            [ {[ "price" := VStr "free" ]} ]
            {[ "qty" := VInt 2 ]} (VFloat 0x1.3333333333334p-2) () _ _);
    reflexivity.
Defined.



Lemma returned_order_witness :
  let svc := stub_service (Returned (approved "pay_123"))
               (Returned (saved_order 99 25)) (Returned ()) in
  let items := [item 10 2; item 5 1] in
  ∃ (total : value) (auth : dict) (payment_id order_id : value)
    (w1 w2 w3 : ()),
    items ≠ [] ∧
    Forall (λ i, is_Some (i !! "price")) items ∧
    (items_ok items = true → total = VInt (spec_total items)) ∧
    authorize_payment (gateway svc) 1 total () = (w1, Returned auth) ∧
    auth !! "status" = Some (VStr "approved") ∧
    auth !! "payment_id" = Some payment_id ∧
    save_order (repo svc) 1 items total payment_id w1
      = (w2, Returned (saved_order 99 25)) ∧
    saved_order 99 25 !! "id" = Some order_id ∧
    track (audit svc) "order_created"
      {[ "order_id" := order_id; "total" := total ]} w2 = (w3, Returned ()) ∧
    run_create_order Blocking svc 1 items ()
    = {| res := Returned (saved_order 99 25);
         world := w3;
         calls := [AuthorizePayment 1 total;
                   SaveOrder 1 items total payment_id;
                   Track "order_created"
                     {[ "order_id" := order_id; "total" := total ]}] |}.
Proof.
  apply (returned_order_was_saved_and_audited
           (stub_service (Returned (approved "pay_123"))
              (Returned (saved_order 99 25)) (Returned ()))
           Blocking 1 [item 10 2; item 5 1] (saved_order 99 25) ()).
  reflexivity.
Defined.

Lemma save_only_after_approval_witness :
  let svc := stub_service (Returned (approved "p1"))
               (Raised (RuntimeError "db down")) (Returned ()) in
  let log := calls (run_create_order Blocking svc 1 [item 4 1] ()) in
  1 = 1 ∧ [item 4 1] = [item 4 1] ∧
  (items_ok [item 4 1] = true → VInt 4 = VInt (spec_total [item 4 1])) ∧
  head log = Some (AuthorizePayment 1 (VInt 4)) ∧
  ∃ (auth : dict) (w1 : ()),
    authorize_payment (gateway svc) 1 (VInt 4) () = (w1, Returned auth) ∧
    auth !! "status" = Some (VStr "approved") ∧
    auth !! "payment_id" = Some (VStr "p1").
Proof.
  apply (save_only_after_approval
           (stub_service (Returned (approved "p1"))
              (Raised (RuntimeError "db down")) (Returned ()))
           Blocking 1 [item 4 1] () 1 [item 4 1] (VInt 4) (VStr "p1")).
  apply list_elem_of_further, list_elem_of_here.
Defined.

Lemma authorization_witness :
  7 = 7 ∧ [item 10 1] ≠ [] ∧
  Forall (λ i : dict, is_Some (i !! "price")) [item 10 1] ∧
  (items_ok [item 10 1] = true → VInt 10 = VInt (spec_total [item 10 1])).
Proof.
  apply (authorization_only_for_computed_total
           (stub_service (Raised (TimeoutError "gateway timeout"))
              (Returned (saved_order 0 0)) (Returned ()))
           Suspending 7 [item 10 1] () 7 (VInt 10)).
  apply list_elem_of_here.
Defined.

Lemma audit_event_witness :
  let svc := stub_service (Returned denied) (Returned (saved_order 0 0))
               (Returned ()) in
  let o := run_create_order Blocking svc 7 [item 10 1] () in
  let payload : dict := {[ "user_id" := VInt 7; "total" := VInt 10 ]} in
  ∃ total : value,
    head (calls o) = Some (AuthorizePayment 7 total) ∧
    (items_ok [item 10 1] = true → total = VInt (spec_total [item 10 1])) ∧
    (("order_denied" = "order_denied" ∧
      payload = {[ "user_id" := VInt 7; "total" := total ]} ∧
      count_calls is_save (calls o) = 0%nat ∧
      ∃ (auth : dict) (w1 : ()),
        authorize_payment (gateway svc) 7 total () = (w1, Returned auth) ∧
        auth !! "status" ≠ Some (VStr "approved"))
     ∨
     ("order_denied" = "order_created" ∧
      ∃ (payment_id : value) (order : dict) (order_id : value) (w1 w2 : ()),
        SaveOrder 7 [item 10 1] total payment_id ∈ calls o ∧
        save_order (repo svc) 7 [item 10 1] total payment_id w1
          = (w2, Returned order) ∧
        order !! "id" = Some order_id ∧
        payload = {[ "order_id" := order_id; "total" := total ]})).
Proof.
  apply (audit_event_tells_what_happened
           (stub_service (Returned denied) (Returned (saved_order 0 0))
              (Returned ()))
           Blocking 7 [item 10 1] () "order_denied"
           {[ "user_id" := VInt 7; "total" := VInt 10 ]}).
  apply list_elem_of_further, list_elem_of_here.
Defined.

Lemma calls_in_fixed_order_witness :
  let log := calls (run_create_order Suspending
                      (stub_service (Returned (approved "p1"))
                         (Returned (saved_order 1 4)) (Returned ()))
                      1 [item 2 2] ()) in
  StronglySorted (λ c c', (call_rank c < call_rank c')%nat) log ∧
  (log ≠ [] → ∃ amount, head log = Some (AuthorizePayment 1 amount)).
Proof.
  apply (calls_in_fixed_order
           (stub_service (Returned (approved "p1"))
              (Returned (saved_order 1 4)) (Returned ()))
           Suspending 1 [item 2 2] ()).
Defined.

Lemma order_total_permutation_witness :
  order_total [item 5 1; item_no_qty 10; item 10 2]
  = order_total [item 10 2; item 5 1; item_no_qty 10].
Proof.
  apply (order_total_permutation
           [item 10 2; item 5 1; item_no_qty 10]
           [item 5 1; item_no_qty 10; item 10 2]).
  - apply (Permutation_cons_append [item 5 1; item_no_qty 10] (item 10 2)).
  - reflexivity.
Defined.

Lemma order_total_app_witness :
  order_total ([item 10 2] ++ [item 5 1; item_no_qty 3]) = Returned (VInt (20 + 8)).
Proof.
  apply (order_total_app [item 10 2] [item 5 1; item_no_qty 3] 20 8);
    reflexivity.
Defined.

Lemma order_total_default_qty_witness :
  order_total ([item 10 2] ++ <["qty" := VInt 1]> (item_no_qty 5) :: [item 1 1])
  = order_total ([item 10 2] ++ item_no_qty 5 :: [item 1 1]).
Proof.
  apply (order_total_default_qty [item 10 2] [item 1 1] (item_no_qty 5)).
  reflexivity.
Defined.

(** ** Properties of the text helpers *)

Lemma isspace_space : isspace 32 = true.
Proof. reflexivity. Qed.

Lemma lstrip_head (s : pystr) (c : N) :
  head (lstrip s) = Some c → isspace c = false.
Proof.
  induction s as [|x s IH]; simpl; [done|].
  destruct (isspace x) eqn:Hx; [done|]. simpl. congruence.
Qed.

Lemma lstrip_id (s : pystr) :
  (∀ c, head s = Some c → isspace c = false) → lstrip s = s.
Proof.
  destruct s as [|x s]; simpl; [done|]. intros H. by rewrite (H x).
Qed.

Lemma lstrip_suffix (s : pystr) :
  ∃ pre : pystr, s = (pre ++ lstrip s)%list ∧ forallb isspace pre = true.
Proof.
  induction s as [|x s (pre & Hs & Hpre)]; simpl.
  - by exists [].
  - destruct (isspace x) eqn:Hx.
    + exists (x :: pre). simpl. rewrite Hx, Hpre. split; [congruence|done].
    + by exists [].
Qed.

Lemma lstrip_last (s : pystr) (c : N) :
  last (lstrip s) = Some c → last s = Some c.
Proof.
  destruct (lstrip_suffix s) as (pre & Hs & _). intros Hlast.
  rewrite Hs. rewrite last_app, Hlast. done.
Qed.

Lemma last_rev (s : pystr) : last (rev s) = head s.
Proof. destruct s as [|x s]; simpl; [done|]. by rewrite last_snoc. Qed.

Lemma head_rev (s : pystr) : head (rev s) = last s.
Proof. by rewrite <- (rev_involutive s) at 2; rewrite last_rev. Qed.

Lemma strip_head (s : pystr) (c : N) :
  head (strip s) = Some c → isspace c = false.
Proof.
  unfold strip, rstrip. rewrite head_rev. intros H%lstrip_last.
  rewrite last_rev in H. by eapply lstrip_head.
Qed.

Lemma strip_last (s : pystr) (c : N) :
  last (strip s) = Some c → isspace c = false.
Proof. unfold strip, rstrip. rewrite last_rev. apply lstrip_head. Qed.

Lemma strip_id (s : pystr) :
  (∀ c, head s = Some c → isspace c = false) →
  (∀ c, last s = Some c → isspace c = false) →
  strip s = s.
Proof.
  intros Hh Hl. unfold strip, rstrip. rewrite (lstrip_id s Hh).
  rewrite lstrip_id; [apply rev_involutive|].
  intros c. rewrite head_rev. apply Hl.
Qed.

Lemma re_spaces_sub_head_in_run (s : pystr) (d : N) :
  head (re_spaces_sub true s) = Some d → isspace d = false.
Proof.
  induction s as [|x s IH]; simpl; [done|].
  destruct (isspace x) eqn:Hx; [done|]. simpl. congruence.
Qed.

Lemma re_spaces_sub_spaces (s : pystr) : ∀ (b : bool) (i : nat) (c d : N),
  re_spaces_sub b s !! i = Some c →
  re_spaces_sub b s !! S i = Some d →
  isspace c = true →
  c = 32%N ∧ isspace d = false.
Proof.
  induction s as [|x s IH]; intros b i c d; simpl; [done|].
  destruct (isspace x) eqn:Hx.
  - destruct b; [apply IH|].
    destruct i as [|i]; simpl; [|apply IH].
    intros [= <-] Hd _. split; [done|].
    apply (re_spaces_sub_head_in_run s). by rewrite <- head_lookup in Hd.
  - destruct i as [|i]; simpl; [|apply IH]. intros [= <-]. congruence.
Qed.

Lemma re_spaces_sub_last (s : pystr) : ∀ (b : bool) (c : N),
  last s = Some c → isspace c = false →
  last (re_spaces_sub b s) = Some c.
Proof.
  induction s as [|x s IH]; intros b c; [done|].
  rewrite last_cons. destruct (last s) as [d|] eqn:Hd.
  - intros [= ->] Hc. simpl.
    destruct (isspace x), b; rewrite ?last_cons; by rewrite (IH _ c).
  - intros [= ->] Hc. apply last_None in Hd as ->. simpl. by rewrite Hc.
Qed.

Lemma re_spaces_sub_id (s : pystr) : ∀ b : bool,
  (b = true → ∀ c, head s = Some c → isspace c = false) →
  (∀ c, last s = Some c → isspace c = false) →
  (∀ i c d, s !! i = Some c → s !! S i = Some d → isspace c = true →
            c = 32%N ∧ isspace d = false) →
  re_spaces_sub b s = s.
Proof.
  induction s as [|x s IH]; intros b Hhead Hlast Hsp; [done|].
  cbn [re_spaces_sub].
  assert (∀ c, last s = Some c → isspace c = false) as Hlast'.
  { intros c Hc. apply Hlast. destruct s; [done|]. done. }
  assert (∀ i c d, s !! i = Some c → s !! S i = Some d → isspace c = true →
                   c = 32%N ∧ isspace d = false) as Hsp'.
  { intros i c d. apply (Hsp (S i)). }
  destruct (isspace x) eqn:Hx.
  - destruct b.
    { specialize (Hhead eq_refl x eq_refl). congruence. }
    destruct s as [|y s].
    { specialize (Hlast x eq_refl). congruence. }
    destruct (Hsp 0%nat x y eq_refl eq_refl Hx) as [-> Hy].
    f_equal. apply IH; [|done..]. intros _ c [= <-]. done.
  - f_equal. apply IH; [done|done..].
Qed.

Lemma filter_lstrip (s : pystr) :
  List.filter (λ c, negb (isspace c)) (lstrip s)
  = List.filter (λ c, negb (isspace c)) s.
Proof.
  induction s as [|x s IH]; simpl; [done|].
  destruct (isspace x) eqn:Hx; simpl; [done|]. by rewrite Hx.
Qed.

Lemma filter_strip (s : pystr) :
  List.filter (λ c, negb (isspace c)) (strip s)
  = List.filter (λ c, negb (isspace c)) s.
Proof.
  unfold strip, rstrip.
  rewrite List.filter_rev, filter_lstrip, <- List.filter_rev, rev_involutive.
  apply filter_lstrip.
Qed.

Lemma filter_re_spaces_sub (s : pystr) : ∀ b : bool,
  List.filter (λ c, negb (isspace c)) (re_spaces_sub b s)
  = List.filter (λ c, negb (isspace c)) s.
Proof.
  induction s as [|x s IH]; intros b; simpl; [done|].
  destruct (isspace x) eqn:Hx; simpl.
  - destruct b; simpl; by rewrite IH.
  - by rewrite Hx, IH.
Qed.

Lemma lstrip_blank (s : pystr) :
  forallb isspace s = true → lstrip s = [].
Proof.
  induction s as [|x s IH]; simpl; [done|].
  destruct (isspace x); simpl; [done|discriminate].
Qed.

Lemma filter_nil_blank (s : pystr) :
  List.filter (λ c, negb (isspace c)) s = [] → forallb isspace s = true.
Proof.
  induction s as [|x s IH]; simpl; [done|].
  destruct (isspace x); simpl; [done|discriminate].
Qed.

Lemma norm_normal_form (s : option pystr) : normalised (norm s).
Proof.
  unfold norm. set (t := strip (default [] s)). split; [|split].
  - intros c. pose proof (strip_head (default [] s)) as Hh. fold t in Hh.
    destruct t as [|x t]; [done|]. simpl.
    destruct (isspace x) eqn:Hx.
    + specialize (Hh x eq_refl). congruence.
    + simpl. congruence.
  - intros c Hc. pose proof (strip_last (default [] s)) as Hl. fold t in Hl.
    destruct (last t) as [d|] eqn:Hd.
    + rewrite (re_spaces_sub_last t false d Hd (Hl d eq_refl)) in Hc.
      injection Hc as <-. by apply Hl.
    + apply last_None in Hd. by rewrite Hd in Hc.
  - apply re_spaces_sub_spaces.
Qed.

Lemma norm_fixpoint_iff (t : pystr) : norm (Some t) = t ↔ normalised t.
Proof.
  split.
  - intros <-. apply norm_normal_form.
  - intros (Hh & Hl & Hsp). unfold norm. simpl.
    rewrite (strip_id t Hh Hl). by apply re_spaces_sub_id.
Qed.

Lemma norm_idempotent (s : option pystr) : norm (Some (norm s)) = norm s.
Proof. apply norm_fixpoint_iff, norm_normal_form. Qed.

Lemma norm_filter (s : option pystr) :
  List.filter (λ c, negb (isspace c)) (norm s)
  = List.filter (λ c, negb (isspace c)) (default [] s).
Proof. unfold norm. by rewrite filter_re_spaces_sub, filter_strip. Qed.

Lemma norm_nil_iff (s : option pystr) :
  norm s = [] ↔ forallb isspace (default [] s) = true.
Proof.
  split.
  - intros Hn. apply filter_nil_blank.
    by rewrite <- norm_filter, Hn.
  - intros Hb. unfold norm, strip. by rewrite (lstrip_blank _ Hb).
Qed.

(** X12.  The result of [norm] has no leading or trailing whitespace, and
    every whitespace character left in it is a single plain space between
    two characters that are not whitespace. *)
Theorem norm_normalised (s : option pystr) : normalised (norm s).
Proof. apply norm_normal_form. Qed.

(** X13.  The texts [norm] leaves unchanged are exactly the normalised
    ones; in particular [norm] is idempotent. *)
Theorem norm_fixpoint (t : pystr) :
  (norm (Some t) = t ↔ normalised t) ∧
  ∀ s, norm (Some (norm s)) = norm s.
Proof. split; [apply norm_fixpoint_iff|apply norm_idempotent]. Qed.

(** X14.  [norm] only touches whitespace: the characters that are not
    whitespace are all kept, in their order. *)
Theorem norm_keeps_other_characters (s : option pystr) :
  List.filter (λ c, negb (isspace c)) (norm s)
  = List.filter (λ c, negb (isspace c)) (default [] s).
Proof. apply norm_filter. Qed.

(** X15.  [norm] returns the empty string exactly for [None] and for the
    texts made of whitespace only (the empty one included). *)
Theorem norm_empty_iff_blank (s : option pystr) :
  norm s = [] ↔ forallb isspace (default [] s) = true.
Proof. apply norm_nil_iff. Qed.

(** ** Properties of the page scraping helpers *)

Lemma extract_case_titles_loop_spec (raw : list pystr) :
  ∀ (titles : list pystr) (seen : gset pystr),
    (∀ t, t ∈ seen ↔ t ∈ titles) →
    NoDup titles →
    ∃ new : list pystr,
      extract_case_titles_loop raw titles seen = (titles ++ new)%list ∧
      NoDup (titles ++ new)%list ∧
      sublist new ((λ r, norm (Some r)) <$> raw) ∧
      (∀ t, t ∈ new ↔
            ((t ∉ titles) ∧ (t ≠ []) ∧ ∃ r, r ∈ raw ∧ norm (Some r) = t)).
Proof.
  induction raw as [|r raw IH]; intros titles seen Hseen Hnd; simpl.
  - exists []. rewrite app_nil_r. split_and!; [done|done|constructor|].
    intros t. rewrite elem_of_nil. split; [done|].
    intros (_ & _ & r & Hr & _). by apply elem_of_nil in Hr.
  - set (t := norm (Some r)).
    destruct (decide (t ≠ [] ∧ t ∉ seen)) as [[Hne Hns]|Hskip].
    + rewrite !bool_decide_eq_true_2 by done. simpl.
      destruct (IH (titles ++ [t])%list ({[t]} ∪ seen))
        as (new & Heq & Hnd' & Hsub & Hin).
      { intros t'. rewrite elem_of_union, elem_of_singleton, elem_of_app,
          list_elem_of_singleton, Hseen. tauto. }
      { apply NoDup_app. split_and!; [done| |apply NoDup_singleton].
        intros t' Ht' ->%list_elem_of_singleton. by apply Hns, Hseen. }
      exists (t :: new). rewrite Heq, <- app_assoc. simpl.
      rewrite <- app_assoc in Hnd'. simpl in Hnd'.
      split_and!; [done|done|by apply sublist_skip|].
      intros t'. rewrite elem_of_cons, Hin, elem_of_app, list_elem_of_singleton.
      split.
      * intros [->|(H1 & H2 & r' & Hr' & Hn)].
        -- split_and!; [by rewrite <- Hseen|done|].
           exists r. split; [apply list_elem_of_here|done].
        -- split_and!; [tauto|done|].
           exists r'. split; [by apply list_elem_of_further|done].
      * intros (H1 & H2 & r' & Hr' & Hn).
        destruct (decide (t' = t)) as [|Hneq]; [by left|right].
        split_and!; [tauto|done|].
        apply elem_of_cons in Hr' as [->|Hr']; [by destruct Hneq|by exists r'].
    + assert (bool_decide (t ≠ []) && bool_decide (t ∉ seen) = false) as ->.
      { apply andb_false_iff. rewrite !bool_decide_eq_false.
        destruct (decide (t ≠ [])); [right|by left].
        intros ?. by apply Hskip. }
      destruct (IH titles seen Hseen Hnd) as (new & Heq & Hnd' & Hsub & Hin).
      exists new. split_and!; [done|done|by apply sublist_cons|].
      intros t'. rewrite Hin. split.
      * intros (H1 & H2 & r' & Hr' & Hn). split_and!; [done|done|].
        exists r'. split; [by apply list_elem_of_further|done].
      * intros (H1 & H2 & r' & Hr' & Hn). split_and!; [done|done|].
        apply elem_of_cons in Hr' as [->|Hr']; [|by exists r'].
        exfalso. fold t in Hn. subst t'. apply Hskip.
        split; [done|]. by rewrite Hseen.
Qed.

(** X16.  The titles returned by [extract_case_titles] are pairwise
    distinct, none is empty and each is normalised; they are exactly the
    non-empty normalised forms of the texts the page gave, and they come
    in the order in which the page gave them. *)
Theorem extract_case_titles_distinct_normalised (page : Page)
    (title_selector : string) (raw titles : list pystr) :
  locator_all_inner_texts page title_selector = Returned raw →
  extract_case_titles page title_selector = Returned titles →
  NoDup titles ∧
  (∀ t, t ∈ titles ↔ (t ≠ [] ∧ ∃ r, r ∈ raw ∧ norm (Some r) = t)) ∧
  (∀ t, t ∈ titles → normalised t) ∧
  sublist titles ((λ r, norm (Some r)) <$> raw).
Proof.
  intros Hraw. unfold extract_case_titles. rewrite Hraw. simpl.
  intros [= <-].
  destruct (extract_case_titles_loop_spec raw [] ∅)
    as (new & -> & Hnd & Hsub & Hin).
  { intros t. rewrite elem_of_empty, elem_of_nil. done. }
  { constructor. }
  simpl in *. split_and!; [done| |  |done].
  - intros t. rewrite Hin, elem_of_nil. tauto.
  - intros t (_ & _ & r & _ & <-)%Hin. apply norm_normal_form.
Qed.

(** X17.  [extract_case_titles] returns no title at all exactly when every
    text the page gave is blank. *)
Theorem extract_case_titles_empty_iff_blank (page : Page)
    (title_selector : string) (raw : list pystr) :
  locator_all_inner_texts page title_selector = Returned raw →
  extract_case_titles page title_selector = Returned []
  ↔ Forall (λ r, forallb isspace r = true) raw.
Proof.
  intros Hraw. unfold extract_case_titles. rewrite Hraw. simpl.
  destruct (extract_case_titles_loop_spec raw [] ∅)
    as (new & -> & Hnd & Hsub & Hin).
  { intros t. rewrite elem_of_empty, elem_of_nil. done. }
  { constructor. }
  simpl. rewrite Forall_forall. split.
  - intros [= ->] r Hr. apply (norm_nil_iff (Some r)).
    destruct (decide (norm (Some r) = [])) as [|Hne]; [done|].
    exfalso. apply (elem_of_nil (norm (Some r))). apply Hin.
    rewrite elem_of_nil. split_and!; [tauto|done|by exists r].
  - intros Hblank. f_equal. apply elem_of_nil_inv. intros t Ht.
    apply Hin in Ht as (_ & Hne & r & Hr & <-). apply Hne.
    apply (norm_nil_iff (Some r)). by apply Hblank.
Qed.

Lemma extract_case_titles_loop_fixpoint (raw : list pystr) :
  let titles := extract_case_titles_loop raw [] ∅ in
  extract_case_titles_loop titles [] ∅ = titles.
Proof.
  intros titles.
  destruct (extract_case_titles_loop_spec raw [] ∅)
    as (new & Heq & Hnd & _ & Hin).
  { intros t. rewrite elem_of_empty, elem_of_nil. done. }
  { constructor. }
  simpl in *. fold titles in Heq. rewrite <- Heq in Hnd, Hin. clear Heq new.
  assert (∀ t, t ∈ titles → t ≠ [] ∧ norm (Some t) = t) as Hok.
  { intros t (_ & Hne & r & _ & <-)%Hin. split; [done|apply norm_idempotent]. }
  clearbody titles. clear Hin.
  enough (∀ (done_ : list pystr) (seen : gset pystr),
            (∀ t, t ∈ seen ↔ t ∈ done_) → NoDup (done_ ++ titles)%list →
            extract_case_titles_loop titles done_ seen = (done_ ++ titles)%list)
    as H by (apply (H [] ∅); [intros t; by rewrite elem_of_empty, elem_of_nil|done]).
  induction titles as [|t titles IH]; intros done_ seen Hseen Hnd'; simpl.
  - by rewrite app_nil_r.
  - destruct (Hok t) as [Hne Hfix]; [apply list_elem_of_here|]. rewrite Hfix.
    apply NoDup_app in Hnd' as (Hd & Hdisj & Ht).
    rewrite !bool_decide_eq_true_2; [|rewrite Hseen; intros ?; eapply Hdisj; [done|apply list_elem_of_here]|done].
    simpl. rewrite IH.
    + by rewrite <- app_assoc.
    + by apply NoDup_cons_1_2 in Hnd.
    + intros t' Ht'. apply Hok. by apply list_elem_of_further.
    + intros t'. rewrite elem_of_union, elem_of_singleton, elem_of_app,
        list_elem_of_singleton, Hseen. tauto.
    + rewrite <- app_assoc. simpl. apply NoDup_app. done.
Qed.

(** X18.  Extracting again from a page that shows exactly the titles
    already extracted gives them back unchanged. *)
Theorem extract_case_titles_again (page page' : Page)
    (title_selector title_selector' : string) (raw titles : list pystr) :
  locator_all_inner_texts page title_selector = Returned raw →
  extract_case_titles page title_selector = Returned titles →
  locator_all_inner_texts page' title_selector' = Returned titles →
  extract_case_titles page' title_selector' = Returned titles.
Proof.
  unfold extract_case_titles. intros -> [= <-] ->. simpl. f_equal.
  apply extract_case_titles_loop_fixpoint.
Qed.

Lemma first_with_elements_spec (page : Page) (dflt : string) :
  ∀ (candidates : list string) (sel : string),
    first_with_elements page candidates dflt = Returned sel →
    (∃ (pre post : list string) (n : nat),
       candidates = (pre ++ sel :: post)%list ∧
       Forall (λ s, locator_count page s = Returned 0%nat) pre ∧
       locator_count page sel = Returned (S n))
    ∨
    (sel = dflt ∧
     Forall (λ s, locator_count page s = Returned 0%nat) candidates).
Proof.
  induction candidates as [|s rest IH]; intros sel; simpl.
  - intros [= <-]. by right.
  - destruct (locator_count page s) as [[|n]|e] eqn:Hs; simpl; [|..].
    + intros [(pre & post & n & -> & Hpre & Hsel)|[-> Hall]]%IH.
      * left. exists (s :: pre), post, n. split_and!; [done| |done].
        by constructor.
      * right. split; [done|]. by constructor.
    + intros [= <-]. left. exists [], rest, n. by split_and!.
    + discriminate.
Qed.

(** X19.  Each selector returned by [pick_selectors] is the first of its
    candidates that matches at least one element of the page; when no
    candidate matches anything, it is the last candidate. *)
Theorem pick_selectors_first_match (page : Page) (card_sel title_sel : string) :
  pick_selectors page = Returned (card_sel, title_sel) →
  (∃ pre post : list string,
     card_candidates = (pre ++ card_sel :: post)%list ∧
     Forall (λ s, locator_count page s = Returned 0%nat) pre ∧
     ((∃ n, locator_count page card_sel = Returned (S n)) ∨
      (post = [] ∧ locator_count page card_sel = Returned 0%nat)))
  ∧
  (∃ pre post : list string,
     title_candidates = (pre ++ title_sel :: post)%list ∧
     Forall (λ s, locator_count page s = Returned 0%nat) pre ∧
     ((∃ n, locator_count page title_sel = Returned (S n)) ∨
      (post = [] ∧ locator_count page title_sel = Returned 0%nat))).
Proof.
  unfold pick_selectors.
  destruct (first_with_elements page card_candidates "article")
    as [c|e] eqn:Hc;
    destruct (first_with_elements page title_candidates "article h3")
      as [t|e'] eqn:Ht; try done.
  intros [= <- <-]. split.
  - apply first_with_elements_spec in Hc
      as [(pre & post & n & Heq & Hpre & Hsel)|[-> Hall]].
    + exists pre, post. eauto.
    + exists [ "article.elementor-post"; ".elementor-posts-container article";
               ".elementor-posts article" ], [].
      split; [done|].
      unfold card_candidates in Hall. rewrite !Forall_cons in Hall.
      destruct Hall as (H1 & H2 & H3 & H4 & _).
      split; [by repeat constructor|]. by right.
  - apply first_with_elements_spec in Ht
      as [(pre & post & n & Heq & Hpre & Hsel)|[-> Hall]].
    + exists pre, post. eauto.
    + exists [ "article.elementor-post .elementor-post__title";
               ".elementor-posts-container .elementor-post__title";
               ".elementor-post__title" ], [].
      split; [done|].
      unfold title_candidates in Hall. rewrite !Forall_cons in Hall.
      destruct Hall as (H1 & H2 & H3 & H4 & _).
      split; [by repeat constructor|]. by right.
Qed.

(** X20.  On a page whose counts do not raise, [pick_selectors] always
    returns a pair of selectors, the first among the card candidates and
    the second among the title candidates. *)
Theorem pick_selectors_returns (page : Page) :
  (∀ s, s ∈ (card_candidates ++ title_candidates)%list →
        ∃ n, locator_count page s = Returned n) →
  ∃ card_sel title_sel,
    pick_selectors page = Returned (card_sel, title_sel) ∧
    card_sel ∈ card_candidates ∧ title_sel ∈ title_candidates.
Proof.
  intros Hcount.
  assert (∀ candidates dflt,
            (∀ s, s ∈ candidates → ∃ n, locator_count page s = Returned n) →
            dflt ∈ candidates →
            ∃ sel, first_with_elements page candidates dflt = Returned sel ∧
                   sel ∈ candidates) as Hfirst.
  { intros candidates dflt Hc Hd.
    enough (∀ l, (∀ s, s ∈ l → ∃ n, locator_count page s = Returned n) →
                 ∃ sel, first_with_elements page l dflt = Returned sel ∧
                        (sel ∈ l ∨ sel = dflt)) as H.
    { destruct (H candidates Hc) as (sel & Hsel & [?| ->]); eauto. }
    induction l as [|s l IH]; intros Hl; simpl; [eauto|].
    destruct (Hl s) as [n Hn]; [apply list_elem_of_here|]. rewrite Hn. simpl.
    destruct n as [|n]; simpl.
    - destruct IH as (sel & Hsel & Hin).
      { intros s' Hs'. apply Hl. by apply list_elem_of_further. }
      exists sel. split; [done|]. destruct Hin; [left|by right].
      by apply list_elem_of_further.
    - exists s. split; [done|]. left. apply list_elem_of_here. }
  destruct (Hfirst card_candidates "article") as (c & Hc & Hcin).
  { intros s Hs. apply Hcount, elem_of_app. by left. }
  { do 3 apply list_elem_of_further. apply list_elem_of_here. }
  destruct (Hfirst title_candidates "article h3") as (t & Ht & Htin).
  { intros s Hs. apply Hcount, elem_of_app. by right. }
  { do 3 apply list_elem_of_further. apply list_elem_of_here. }
  exists c, t. unfold pick_selectors. by rewrite Hc, Ht.
Qed.

Lemma normalised_nil : normalised [].
Proof. by split_and!; intros *; try rewrite lookup_nil. Qed.

Lemma re_spaces_sub_app (x z : pystr) (c : N) : ∀ b : bool,
  last x = Some c → isspace c = false →
  re_spaces_sub b (x ++ z) = (re_spaces_sub b x ++ re_spaces_sub false z)%list.
Proof.
  induction x as [|a x IH]; intros b; [done|].
  rewrite last_cons. destruct (last x) as [d|] eqn:Hd.
  - intros [= ->] Hc. simpl.
    destruct (isspace a), b; simpl; by rewrite (IH _ eq_refl Hc).
  - intros [= ->] Hc. apply last_None in Hd as ->. simpl. by rewrite Hc.
Qed.

Lemma normalised_join_two (x y : pystr) :
  normalised x → normalised y → x ≠ [] → y ≠ [] →
  normalised (x ++ py " " ++ y)%list.
Proof.
  intros Hx Hy Hxne Hyne. apply norm_fixpoint_iff.
  pose proof Hx as (Hxh & Hxl & Hxs). pose proof Hy as (Hyh & Hyl & Hys).
  assert (∃ c, last x = Some c) as [c Hc].
  { destruct (last x) eqn:E; [eauto|by apply last_None in E]. }
  unfold norm. simpl default. rewrite strip_id.
  - rewrite (re_spaces_sub_app x _ c false Hc (Hxl c Hc)).
    rewrite (re_spaces_sub_id x false); [|done..]. f_equal.
    change (py " " ++ y)%list with (32%N :: y). simpl. f_equal.
    apply re_spaces_sub_id; [by intros _|done..].
  - intros d. destruct x; [done|]. apply Hxh.
  - intros d. rewrite last_app. change (py " " ++ y)%list with (32%N :: y).
    rewrite last_cons. destruct (last y) as [e|] eqn:He.
    + intros [= <-]. by apply Hyl.
    + by apply last_None in He.
Qed.

Lemma str_join_normalised (parts : list pystr) :
  Forall (λ t, normalised t ∧ t ≠ []) parts →
  normalised (str_join (py " ") parts) ∧
  (parts ≠ [] → str_join (py " ") parts ≠ []).
Proof.
  induction 1 as [|x parts [Hx Hxne] Hparts [IHn IHne]]; simpl.
  - split; [apply normalised_nil|done].
  - destruct parts as [|y parts]; [done|].
    split.
    + apply normalised_join_two; [done|done|done|]. by apply IHne.
    + intros _. by destruct x.
Qed.

Lemma join_paragraphs_normalised (ps : list pystr) :
  normalised (join_paragraphs ps).
Proof.
  unfold join_paragraphs. apply str_join_normalised.
  apply Forall_forall. intros t Ht.
  apply list_elem_of_In, List.filter_In in Ht as [Ht Hne].
  apply list_elem_of_In, list_elem_of_fmap in Ht as (x & -> & _).
  split; [apply norm_normal_form|].
  apply negb_true_iff, bool_decide_eq_false in Hne. done.
Qed.

Lemma except_Exception_normalised (r : result pystr) (t : pystr) :
  except_Exception ((λ t, norm (Some t)) <$> r) [] = Returned t →
  normalised t.
Proof.
  destruct r as [x|e]; simpl.
  - intros [= <-]. apply norm_normal_form.
  - destruct (is_Exception e); [|done]. intros [= <-]. apply normalised_nil.
Qed.

(** X21.  Whenever [_extract_slide_text] returns, it returns a dict with
    exactly the keys "title", "description" and "raw", whose three values
    are normalised texts; "raw" is filled only when both the title and
    the description are empty. *)
Theorem extract_slide_text_shape (slide : Slide) (d : gmap string pystr) :
  _extract_slide_text slide = Returned d →
  ∃ title desc raw : pystr,
    d = {[ "title" := title; "description" := desc; "raw" := raw ]} ∧
    normalised title ∧ normalised desc ∧ normalised raw ∧
    (raw ≠ [] → title = [] ∧ desc = []).
Proof.
  unfold _extract_slide_text.
  destruct (heading_count slide) as [n|e]; simpl; [|done].
  set (rt := if (0 <? n)%nat
             then except_Exception
                    ((λ t, norm (Some t)) <$> heading_inner_text slide) []
             else Returned []).
  assert (∀ t, rt = Returned t → normalised t) as Hrt.
  { unfold rt. destruct (0 <? n)%nat.
    - apply except_Exception_normalised.
    - intros t [= <-]. apply normalised_nil. }
  destruct rt as [title|e]; simpl; [|done].
  destruct (paragraph_inner_texts slide) as [ps|e]; simpl.
  - case_bool_decide as Ht; simpl.
    + case_bool_decide as Hd; simpl.
      * destruct (except_Exception
                    ((λ t, norm (Some t)) <$> slide_inner_text slide) [])
          as [raw|e] eqn:Hraw; simpl; [|done].
        intros [= <-]. exists [], [], raw.
        split_and!; [done|apply normalised_nil..| |done].
        by eapply except_Exception_normalised.
      * intros [= <-]. exists title, (join_paragraphs ps), [].
        split_and!; [done|by apply Hrt|apply join_paragraphs_normalised
                    |apply normalised_nil|done].
    + intros [= <-]. exists title, (join_paragraphs ps), [].
      split_and!; [done|by apply Hrt|apply join_paragraphs_normalised
                  |apply normalised_nil|done].
  - destruct (is_Exception e); simpl; [|done].
    case_bool_decide as Ht; simpl.
    + destruct (except_Exception
                  ((λ t, norm (Some t)) <$> slide_inner_text slide) [])
        as [raw|e'] eqn:Hraw; simpl; [|done].
      intros [= <-]. exists [], [], raw.
      split_and!; [done|apply normalised_nil..| |done].
      by eapply except_Exception_normalised.
    + intros [= <-]. exists title, [], [].
      split_and!; [done|by apply Hrt|apply normalised_nil..|done].
Qed.

(** X22.  Only the heading count can make [_extract_slide_text] fail with
    an ordinary exception: once the count has returned, any exception
    caught by [except Exception] that the text queries raise is swallowed
    and a dict is returned all the same. *)
Theorem extract_slide_text_swallows_text_errors (slide : Slide) (n : nat) :
  heading_count slide = Returned n →
  (∀ e, heading_inner_text slide = Raised e → is_Exception e = true) →
  (∀ e, paragraph_inner_texts slide = Raised e → is_Exception e = true) →
  (∀ e, slide_inner_text slide = Raised e → is_Exception e = true) →
  ∃ d, _extract_slide_text slide = Returned d.
Proof.
  intros Hn Hh Hp Hs. unfold _extract_slide_text. rewrite Hn. simpl.
  assert (∀ (A : Type) (r : result A) (a : A),
            (∀ e, r = Raised e → is_Exception e = true) →
            ∃ x, except_Exception r a = Returned x) as Hcatch.
  { intros A [x|e] a H; simpl; [eauto|]. rewrite (H e eq_refl). eauto. }
  destruct (Hcatch _ ((λ t, norm (Some t)) <$> heading_inner_text slide) [])
    as [t Ht].
  { intros e. destruct (heading_inner_text slide); [done|].
    intros [= <-]. by apply Hh. }
  destruct (Hcatch _ (join_paragraphs <$> paragraph_inner_texts slide) [])
    as [dsc Hdsc].
  { intros e. destruct (paragraph_inner_texts slide); [done|].
    intros [= <-]. by apply Hp. }
  destruct (Hcatch _ ((λ t, norm (Some t)) <$> slide_inner_text slide) [])
    as [raw Hraw].
  { intros e. destruct (slide_inner_text slide); [done|].
    intros [= <-]. by apply Hs. }
  rewrite Hdsc, Hraw. destruct (0 <? n)%nat; rewrite ?Ht; simpl;
    repeat case_bool_decide; simpl; eauto.
Qed.

(** ** Properties of the page driving helpers *)

Lemma count_ops_app (p : page_call → bool) (l k : list page_call) :
  count_ops p (l ++ k) = (count_ops p l + count_ops p k)%nat.
Proof. unfold count_ops. by rewrite List.filter_app, length_app. Qed.

Section DrivingLogs.
Context {W : Type}.

Lemma count_ops_perform {A} (p : page_call → bool) (c : page_call)
    (f : W → W * result A) (w : W) :
  count_ops p (logged (perform c f w)) = if p c then 1%nat else 0%nat.
Proof.
  unfold perform. destruct (f w) as [w' r].
  by destruct (p c) eqn:Hp; cbn; rewrite Hp.
Qed.

Lemma count_ops_bind {A B} (p : page_call → bool) (m : driving W A)
    (k : A → driving W B) (w : W) (N M : nat) :
  (count_ops p (logged (m w)) ≤ N)%nat →
  (∀ a w', (count_ops p (logged (k a w')) ≤ M)%nat) →
  (count_ops p (logged ((m ≫= k) w)) ≤ N + M)%nat.
Proof.
  intros Hm Hk. unfold mbind, driving_mbind, driving_bind.
  destruct (ended (m w)) as [a|e]; simpl.
  - rewrite count_ops_app. specialize (Hk a (final (m w))). lia.
  - lia.
Qed.

Lemma count_ops_try_except {A} (p : page_call → bool) (m handler : driving W A)
    (catches : exn → bool) (w : W) (N M : nat) :
  (count_ops p (logged (m w)) ≤ N)%nat →
  (∀ w', (count_ops p (logged (handler w')) ≤ M)%nat) →
  (count_ops p (logged (try_except m catches handler w)) ≤ N + M)%nat.
Proof.
  intros Hm Hh. unfold try_except.
  destruct (ended (m w)) as [a|e]; simpl; [lia|].
  destruct (catches e); simpl; [|lia].
  rewrite count_ops_app. specialize (Hh (final (m w))). lia.
Qed.

(** A step that performs one operation that is not of the kind counted. *)
Lemma count_ops_bind_other {B} {A} (p : page_call → bool) (c : page_call)
    (f : W → W * result A) (k : A → driving W B) (w : W) (M : nat) :
  p c = false →
  (∀ a w', (count_ops p (logged (k a w')) ≤ M)%nat) →
  (count_ops p (logged ((perform c f ≫= k) w)) ≤ M)%nat.
Proof.
  intros Hc Hk. apply (count_ops_bind p (perform c f) k w 0 M); [|done].
  by rewrite count_ops_perform, Hc.
Qed.

(** A step that performs one operation of the kind counted. *)
Lemma count_ops_bind_one {B} {A} (p : page_call → bool) (c : page_call)
    (f : W → W * result A) (k : A → driving W B) (w : W) (M : nat) :
  (∀ a w', (count_ops p (logged (k a w')) ≤ M)%nat) →
  (count_ops p (logged ((perform c f ≫= k) w)) ≤ S M)%nat.
Proof.
  intros Hk. apply (count_ops_bind p (perform c f) k w 1 M); [|done].
  rewrite count_ops_perform. destruct (p c); lia.
Qed.

Lemma wait_for_more_cards_clicks (page : LivePage W) (card_selector : string)
    (prev : nat) : ∀ (n : nat) (w : W),
  (count_ops is_click (logged (wait_for_more_cards page card_selector prev n w))
     ≤ 0)%nat.
Proof.
  induction n as [|n IH]; intros w; [done|]. cbn [wait_for_more_cards].
  apply count_ops_bind_other; [done|]. intros [] w1.
  apply count_ops_bind_other; [done|]. intros now w2.
  destruct (prev <? now)%nat; [done|apply IH].
Qed.

Lemma wait_for_more_cards_counts (page : LivePage W) (card_selector : string)
    (prev : nat) : ∀ (n : nat) (w : W),
  (count_ops is_count (logged (wait_for_more_cards page card_selector prev n w))
     ≤ n)%nat.
Proof.
  induction n as [|n IH]; intros w; [done|]. cbn [wait_for_more_cards].
  apply count_ops_bind_other; [done|]. intros [] w1.
  apply count_ops_bind_one. intros now w2.
  destruct (prev <? now)%nat; [cbn; lia|apply IH].
Qed.

Lemma visibility_check_ops (p : page_call → bool) (load_more : Locator W)
    (w : W) :
  p (IsVisible 1500) = false →
  (count_ops p
     (logged (try_except (perform (IsVisible 1500) (is_visible load_more 1500))
                is_Exception (driving_ret false) w)) ≤ 0)%nat.
Proof.
  intros Hp.
  apply (count_ops_try_except p _ _ _ w 0 0); [|done].
  by rewrite count_ops_perform, Hp.
Qed.

Lemma click_load_more_rounds_clicks (page : LivePage W) (load_more : Locator W)
    (card_selector : string) : ∀ (n : nat) (w : W),
  (count_ops is_click
     (logged (click_load_more_rounds page load_more card_selector n w)) ≤ n)%nat.
Proof.
  induction n as [|n IH]; intros w; [done|]. cbn [click_load_more_rounds].
  apply count_ops_bind_other; [done|]. intros [] w1.
  apply count_ops_bind_other; [done|]. intros [] w2.
  apply (count_ops_bind is_click _ _ w2 0 (S n));
    [by apply visibility_check_ops|].
  intros visible w3. destruct visible; cbn [negb]; [|cbn; lia].
  apply count_ops_bind_other; [done|]. intros prev w4.
  apply count_ops_bind_other; [done|]. intros [] w5.
  apply count_ops_bind_one. intros [] w6.
  apply count_ops_bind_other; [done|]. intros [] w7.
  apply (count_ops_bind is_click _ _ w7 0 n);
    [apply wait_for_more_cards_clicks|].
  intros more w8. destruct more; [apply IH|cbn; lia].
Qed.

Lemma click_load_more_rounds_counts (page : LivePage W) (load_more : Locator W)
    (card_selector : string) : ∀ (n : nat) (w : W),
  (count_ops is_count
     (logged (click_load_more_rounds page load_more card_selector n w))
     ≤ 33 * n)%nat.
Proof.
  induction n as [|n IH]; intros w; [done|]. cbn [click_load_more_rounds].
  apply count_ops_bind_other; [done|]. intros [] w1.
  apply count_ops_bind_other; [done|]. intros [] w2.
  apply (count_ops_bind is_count _ _ w2 0 (33 * S n));
    [by apply visibility_check_ops|].
  intros visible w3. destruct visible; cbn [negb]; [|cbn; lia].
  replace (33 * S n)%nat with (S (32 + 33 * n)) by lia.
  apply count_ops_bind_one. intros prev w4.
  apply count_ops_bind_other; [done|]. intros [] w5.
  apply count_ops_bind_other; [done|]. intros [] w6.
  apply count_ops_bind_other; [done|]. intros [] w7.
  apply (count_ops_bind is_count _ _ w7 32 (33 * n));
    [apply wait_for_more_cards_counts|].
  intros more w8. destruct more; [apply IH|cbn; lia].
Qed.

(** One operation that returns, then the rest. *)
Lemma bind_perform_returned {A B} (c : page_call) (f : W → W * result A)
    (k : A → driving W B) (a : A) (w w' : W) :
  f w = (w', Returned a) →
  (perform c f ≫= k) w
  = {| ended := ended (k a w'); final := final (k a w');
       logged := c :: logged (k a w') |}.
Proof.
  intros Hf. unfold mbind, driving_mbind, driving_bind, perform.
  by rewrite Hf.
Qed.

(** One operation that raises. *)
Lemma bind_perform_raised {A B} (c : page_call) (f : W → W * result A)
    (k : A → driving W B) (e : exn) (w w' : W) :
  f w = (w', Raised e) →
  (perform c f ≫= k) w = {| ended := Raised e; final := w'; logged := [c] |}.
Proof.
  intros Hf. unfold mbind, driving_mbind, driving_bind, perform.
  by rewrite Hf.
Qed.

(** A computation whose outcome is known, then the rest. *)
Lemma bind_returned {A B} (m : driving W A) (k : A → driving W B) (a : A)
    (w w' : W) (l : list page_call) :
  m w = {| ended := Returned a; final := w'; logged := l |} →
  (m ≫= k) w
  = {| ended := ended (k a w'); final := final (k a w');
       logged := l ++ logged (k a w') |}.
Proof.
  intros Hm. unfold mbind, driving_mbind, driving_bind. by rewrite Hm.
Qed.

(** X23.  [click_load_more_until_end] never clicks the button more than
    [max_clicks] times, whatever the page does, and never counts the cards
    more than 33 times per allowed click (once before the click and at
    most 32 times while waiting for new cards). *)
Theorem click_load_more_bounded (page : LivePage W) (card_selector : string)
    (max_clicks : Z) (w : W) :
  let log := logged (click_load_more_until_end page card_selector max_clicks w) in
  (count_ops is_click log ≤ Z.to_nat max_clicks)%nat ∧
  (count_ops is_count log ≤ 33 * Z.to_nat max_clicks)%nat.
Proof.
  split; [apply click_load_more_rounds_clicks|apply click_load_more_rounds_counts].
Qed.

(** With [max_clicks] zero or negative, [click_load_more_until_end]
    returns at once without touching the page. *)
Lemma click_load_more_no_rounds (page : LivePage W) (card_selector : string)
    (max_clicks : Z) (w : W) :
  (max_clicks ≤ 0)%Z →
  click_load_more_until_end page card_selector max_clicks w
  = {| ended := Returned (); final := w; logged := [] |}.
Proof.
  intros Hmax. unfold click_load_more_until_end.
  replace (Z.to_nat max_clicks) with 0%nat by lia. done.
Qed.

(** X24.  When the button is not visible at the first check, or the check
    raises an exception that [except Exception] catches,
    [click_load_more_until_end] returns normally without any click. *)
Theorem click_load_more_stops_when_hidden (page : LivePage W)
    (card_selector : string) (max_clicks : Z) (r : result bool)
    (w w1 w2 w3 : W) :
  (0 < max_clicks)%Z →
  evaluate page "window.scrollTo(0, document.body.scrollHeight)" w
    = (w1, Returned ()) →
  wait_for_timeout page 500 w1 = (w2, Returned ()) →
  is_visible (get_by_role page "button" "carregar\s+mais") 1500 w2 = (w3, r) →
  match r with Returned v => v = false | Raised e => is_Exception e = true end →
  click_load_more_until_end page card_selector max_clicks w
  = {| ended := Returned ();
       final := w3;
       logged := [ Evaluate "window.scrollTo(0, document.body.scrollHeight)";
                   WaitForTimeout 500; IsVisible 1500 ] |}.
Proof.
  intros Hmax Hev Hwait Hvis Hr. unfold click_load_more_until_end.
  destruct (Z.to_nat max_clicks) as [|n] eqn:Hn; [lia|].
  cbn [click_load_more_rounds].
  rewrite (bind_perform_returned _ _ _ () w w1 Hev).
  rewrite (bind_perform_returned _ _ _ () w1 w2 Hwait).
  assert (try_except
            (perform (IsVisible 1500)
               (is_visible (get_by_role page "button" "carregar\s+mais") 1500))
            is_Exception (driving_ret false) w2
          = {| ended := Returned false; final := w3;
               logged := [IsVisible 1500] |}) as Hcheck.
  { unfold try_except, perform. rewrite Hvis. cbn.
    destruct r as [v|e]; [by subst v|by rewrite Hr]. }
  rewrite (bind_returned _ _ false w2 w3 [IsVisible 1500] Hcheck).
  reflexivity.
Qed.

(** *** [click_or_goto] *)

(** X25.  [click_or_goto] navigates only as a last resort: when the plain
    click and then the forced click both raise Playwright's timeout, it
    goes to the link's own target if the locator gave a non-empty "href",
    and to the fallback address otherwise (also when reading the
    attribute failed); how that navigation ends is how the call ends. *)
Theorem click_or_goto_falls_back (target : Locator W) (fallback_url : pystr)
    (page : LivePage W) (timeout_ms : Z) (rh : result (option pystr))
    (e1 e2 : exn) (r : result unit) (w w1 w2 w3 w4 : W) :
  let href := match rh with Returned h => h | Raised _ => None end in
  let url := href_or href fallback_url in
  get_attribute target "href" w = (w1, rh) →
  match rh with Returned _ => True | Raised e => is_Exception e = true end →
  click target (Some timeout_ms) false w1 = (w2, Raised e1) →
  is_PwTimeoutError e1 = true →
  click target (Some timeout_ms) true w2 = (w3, Raised e2) →
  is_PwTimeoutError e2 = true →
  goto page url "domcontentloaded" w3 = (w4, r) →
  click_or_goto target fallback_url page timeout_ms w
  = {| ended := r;
       final := w4;
       logged := [ GetAttribute "href"; Click (Some timeout_ms) false;
                   Click (Some timeout_ms) true;
                   Goto url "domcontentloaded" ] |}.
Proof.
  intros href url Hattr Hrh Hc1 He1 Hc2 He2 Hgoto. unfold click_or_goto.
  assert (try_except
            (perform (GetAttribute "href") (get_attribute target "href"))
            is_Exception (driving_ret None) w
          = {| ended := Returned href; final := w1;
               logged := [GetAttribute "href"] |}) as Hget.
  { unfold try_except, perform. rewrite Hattr. cbn.
    destruct rh as [h|e]; [done|by rewrite Hrh]. }
  rewrite (bind_returned _ _ href w w1 _ Hget). fold url.
  unfold try_except, perform. cbn -[href_or].
  rewrite Hc1. cbn -[href_or]. rewrite He1. cbn -[href_or].
  rewrite Hc2. cbn -[href_or]. rewrite He2. cbn -[href_or].
  by rewrite Hgoto.
Qed.

(** X26.  Whatever the locator and the page do, [click_or_goto] clicks at
    most twice and navigates at most once; it navigates only after two
    clicks, and it never navigates when a click returned or raised
    anything but Playwright's timeout. *)
Theorem click_or_goto_bounded (target : Locator W) (fallback_url : pystr)
    (page : LivePage W) (timeout_ms : Z) (w : W) :
  let log := logged (click_or_goto target fallback_url page timeout_ms w) in
  (count_ops is_click log ≤ 2)%nat ∧
  (count_ops is_goto log ≤ 1)%nat ∧
  (count_ops is_goto log = 1%nat →
   count_ops is_click log = 2%nat ∧
   ∃ (e1 e2 : exn) (w1 w2 w3 : W),
     click target (Some timeout_ms) false w1 = (w2, Raised e1) ∧
     is_PwTimeoutError e1 = true ∧
     click target (Some timeout_ms) true w2 = (w3, Raised e2) ∧
     is_PwTimeoutError e2 = true).
Proof.
  unfold click_or_goto. driving_simpl.
  destruct (get_attribute target "href" w) as [w1 [h|e]]; cbn -[href_or];
    [|destruct (is_Exception e); cbn -[href_or];
      [|split_and!; [lia|lia|done]]].
  all: destruct (click target (Some timeout_ms) false w1) as [w2 [[]|e1]]
         eqn:Hc1; cbn -[href_or]; [split_and!; [lia|lia|done]|].
  all: destruct (is_PwTimeoutError e1) eqn:He1; cbn -[href_or];
         [|split_and!; [lia|lia|done]].
  all: destruct (click target (Some timeout_ms) true w2) as [w3 [[]|e2]]
         eqn:Hc2; cbn -[href_or]; [split_and!; [lia|lia|done]|].
  all: destruct (is_PwTimeoutError e2) eqn:He2; cbn -[href_or];
         [|split_and!; [lia|lia|done]].
  all: destruct (goto page _ _ w3) as [w4 r]; cbn -[href_or].
  all: split_and!; [lia|lia|]; intros _; split; [done|].
  all: by exists e1, e2, w1, w2, w3.
Qed.

(** X27.  An exception of a click that is not Playwright's timeout is not
    handled: [click_or_goto] raises it, without a second click and without
    navigating, whether reading the "href" returned or raised an exception
    that [except Exception] catches. *)
Theorem click_or_goto_other_error (target : Locator W) (fallback_url : pystr)
    (page : LivePage W) (timeout_ms : Z) (rh : result (option pystr))
    (e : exn) (w w1 w2 : W) :
  get_attribute target "href" w = (w1, rh) →
  match rh with Returned _ => True | Raised e' => is_Exception e' = true end →
  click target (Some timeout_ms) false w1 = (w2, Raised e) →
  is_PwTimeoutError e = false →
  click_or_goto target fallback_url page timeout_ms w
  = {| ended := Raised e;
       final := w2;
       logged := [ GetAttribute "href"; Click (Some timeout_ms) false ] |}.
Proof.
  intros Hattr Hrh Hc He. unfold click_or_goto. driving_simpl.
  rewrite Hattr. destruct rh as [h|e']; cbn -[href_or];
    [|rewrite Hrh; cbn -[href_or]];
    rewrite Hc; cbn -[href_or]; by rewrite He.
Qed.
End DrivingLogs.

(** *** [collect_all_carousel_titles_via_next] *)

Lemma strip_idempotent (s : pystr) : strip (strip s) = strip s.
Proof. apply strip_id; [apply strip_head|apply strip_last]. Qed.

Section CarouselLoop.
Context {W : Type}.

(** When a sequence returns, so did its first part. *)
Lemma bind_ended_returned {A B} (m : driving W A) (k : A → driving W B)
    (w : W) (b : B) :
  ended ((m ≫= k) w) = Returned b →
  ∃ a, ended (m w) = Returned a ∧ ended (k a (final (m w))) = Returned b.
Proof.
  unfold mbind, driving_mbind, driving_bind.
  destruct (ended (m w)) as [a|e]; cbn [ended]; [eauto|done].
Qed.

Lemma active_title_stripped (helpers : CarouselHelpers W) (w : W) (t : pystr) :
  ended (active_title helpers w) = Returned t → strip t = t.
Proof.
  unfold active_title.
  intros (info & _ & [= <-])%bind_ended_returned. apply strip_idempotent.
Qed.

Lemma active_title_no_next (helpers : CarouselHelpers W) (w : W) :
  (count_ops is_carousel_next (logged (active_title helpers w)) ≤ 0)%nat.
Proof.
  unfold active_title. apply count_ops_bind_other; [done|]. by intros info w'.
Qed.

Lemma collect_carousel_steps_next (helpers : CarouselHelpers W)
    (page : LivePage W) :
  ∀ (n : nat) (titles : list pystr) (seen : gset pystr) (w : W),
    (count_ops is_carousel_next
       (logged (collect_carousel_steps helpers page n titles seen w)) ≤ n)%nat.
Proof.
  induction n as [|n IH]; intros titles seen w; [done|].
  cbn [collect_carousel_steps].
  apply count_ops_bind_one. intros [] w1.
  apply count_ops_bind_other; [done|]. intros [] w2.
  apply (count_ops_bind is_carousel_next _ _ w2 0 n);
    [apply active_title_no_next|].
  intros t w3. repeat case_bool_decide; [apply IH|cbn; lia|apply IH].
Qed.

Lemma collect_carousel_steps_spec (helpers : CarouselHelpers W)
    (page : LivePage W) :
  ∀ (n : nat) (titles : list pystr) (seen : gset pystr) (w : W)
    (out : list pystr),
    (∀ t, t ∈ seen ↔ t ∈ titles) →
    NoDup titles →
    Forall (λ t, t ≠ [] ∧ strip t = t) titles →
    ended (collect_carousel_steps helpers page n titles seen w) = Returned out →
    NoDup out ∧ Forall (λ t, t ≠ [] ∧ strip t = t) out ∧
    (length out ≤ length titles + n)%nat ∧ titles `prefix_of` out.
Proof.
  induction n as [|n IH]; intros titles seen w out Hseen Hnd Hok.
  { intros [= <-]. split_and!; [done|done|lia|done]. }
  cbn [collect_carousel_steps].
  intros ([] & _ & Hrest)%bind_ended_returned.
  apply bind_ended_returned in Hrest as ([] & _ & Hrest).
  apply bind_ended_returned in Hrest as (t & Ht%active_title_stripped & Hrest).
  revert Hrest. case_bool_decide as Hne; [|case_bool_decide as Hin].
  - intros (? & ? & ? & ?)%IH; [|done..]. split_and!; [done|done|lia|done].
  - intros [= <-]. split_and!; [done|done|lia|done].
  - intros (? & ? & Hlen & Hpre)%IH.
    + rewrite length_app in Hlen. cbn in Hlen.
      split_and!; [done|done|lia|]. etrans; [|done]. by apply prefix_app_r.
    + intros t'. rewrite elem_of_union, elem_of_singleton, elem_of_app,
        list_elem_of_singleton, Hseen. tauto.
    + apply NoDup_app. split_and!; [done| |apply NoDup_singleton].
      intros t' Ht' ->%list_elem_of_singleton. by apply Hin, Hseen.
    + apply Forall_app. split; [done|]. by repeat constructor.
Qed.

(** X28.  [collect_all_carousel_titles_via_next] presses "next" at most
    [max_steps] times, whatever the page does; the titles it returns are
    pairwise distinct, non-empty and without leading or trailing
    whitespace, and there are at most [max_steps + 1] of them. *)
Theorem carousel_titles_distinct_and_bounded (helpers : CarouselHelpers W)
    (page : LivePage W) (max_steps : Z) (w : W) :
  let o := collect_all_carousel_titles_via_next helpers page max_steps w in
  (count_ops is_carousel_next (logged o) ≤ Z.to_nat max_steps)%nat ∧
  ∀ titles, ended o = Returned titles →
            NoDup titles ∧
            Forall (λ t, t ≠ [] ∧ strip t = t) titles ∧
            (length titles ≤ S (Z.to_nat max_steps))%nat.
Proof.
  unfold collect_all_carousel_titles_via_next. split.
  - apply count_ops_bind_other; [done|]. intros [] w1.
    apply (count_ops_bind is_carousel_next _ _ w1 0 (Z.to_nat max_steps));
      [apply active_title_no_next|].
    intros cur w2. case_bool_decide; apply collect_carousel_steps_next.
  - intros titles ([] & _ & Hrest)%bind_ended_returned.
    apply bind_ended_returned in Hrest
      as (cur & Hcur%active_title_stripped & Hrest).
    revert Hrest. case_bool_decide as Hne.
    + intros (? & ? & Hlen & _)%collect_carousel_steps_spec.
      * cbn in Hlen. split_and!; [done|done|lia].
      * intros t. by rewrite elem_of_empty, elem_of_nil.
      * constructor.
      * constructor.
    + intros (? & ? & Hlen & _)%collect_carousel_steps_spec.
      * cbn in Hlen. split_and!; [done|done|lia].
      * intros t. by rewrite elem_of_singleton, list_elem_of_singleton.
      * apply NoDup_singleton.
      * by repeat constructor.
Qed.
End CarouselLoop.

(** *** The properties of the browser helpers at concrete inputs *)

Lemma extract_case_titles_witness :
  NoDup [py "Case A"; py "Case B"].
Proof.
  apply (extract_case_titles_distinct_normalised
           (static_page (λ _, 4%nat)
              [py "  Case   A "; py "Case A"; py "   "; py "Case B"])
           ".elementor-post__title"
           [py "  Case   A "; py "Case A"; py "   "; py "Case B"]
           [py "Case A"; py "Case B"]);
    reflexivity.
Defined.

Lemma extract_case_titles_blank_witness :
  extract_case_titles (static_page (λ _, 2%nat) [py "  "; []]) "article h3"
  = Returned [].
Proof.
  apply (extract_case_titles_empty_iff_blank
           (static_page (λ _, 2%nat) [py "  "; []]) "article h3"
           [py "  "; []]); [reflexivity|].
  repeat constructor.
Defined.

Lemma extract_case_titles_again_witness :
  extract_case_titles (static_page (λ _, 2%nat) [py "Case A"; py "Case B"])
    "article h3"
  = Returned [py "Case A"; py "Case B"].
Proof.
  apply (extract_case_titles_again
           (static_page (λ _, 4%nat)
              [py "  Case   A "; py "Case A"; py "   "; py "Case B"])
           (static_page (λ _, 2%nat) [py "Case A"; py "Case B"])
           ".elementor-post__title" "article h3"
           [py "  Case   A "; py "Case A"; py "   "; py "Case B"]
           [py "Case A"; py "Case B"]);
    reflexivity.
Defined.

(** Only the bare [article] selectors match something. *)
Lemma pick_selectors_witness :
  let page := static_page
                (λ s, if bool_decide (s = "article") then 3%nat
                      else if bool_decide (s = "article h3") then 3%nat
                      else 0%nat) [] in
  (∃ pre post : list string,
     card_candidates = (pre ++ "article" :: post)%list ∧
     Forall (λ s, locator_count page s = Returned 0%nat) pre ∧
     ((∃ n, locator_count page "article" = Returned (S n)) ∨
      (post = [] ∧ locator_count page "article" = Returned 0%nat)))
  ∧
  (∃ pre post : list string,
     title_candidates = (pre ++ "article h3" :: post)%list ∧
     Forall (λ s, locator_count page s = Returned 0%nat) pre ∧
     ((∃ n, locator_count page "article h3" = Returned (S n)) ∨
      (post = [] ∧ locator_count page "article h3" = Returned 0%nat))).
Proof.
  apply (pick_selectors_first_match
           (static_page
              (λ s, if bool_decide (s = "article") then 3%nat
                    else if bool_decide (s = "article h3") then 3%nat
                    else 0%nat) [])
           "article" "article h3").
  reflexivity.
Defined.

Lemma pick_selectors_returns_witness :
  ∃ card_sel title_sel,
    pick_selectors (static_page (λ _, 0%nat) []) = Returned (card_sel, title_sel) ∧
    card_sel ∈ card_candidates ∧ title_sel ∈ title_candidates.
Proof.
  apply (pick_selectors_returns (static_page (λ _, 0%nat) [])).
  intros s _. exists 0%nat. reflexivity.
Defined.

(** A slide whose heading cannot be read and that has two paragraphs, one
    of them blank. *)
Lemma extract_slide_text_witness :
  ∃ title desc raw : pystr,
    ({[ "title" := []; "description" := py "Gestao corporativa"; "raw" := [] ]}
       : gmap string pystr)
    = {[ "title" := title; "description" := desc; "raw" := raw ]} ∧
    normalised title ∧ normalised desc ∧ normalised raw ∧
    (raw ≠ [] → title = [] ∧ desc = []).
Proof.
  apply (extract_slide_text_shape
           {| heading_count := Returned 1%nat;
              heading_inner_text := Raised (RuntimeError "detached");
              paragraph_inner_texts :=
                Returned [py " Gestao  corporativa "; py "  "];
              slide_inner_text := Returned (py "unused") |}).
  reflexivity.
Defined.

Lemma extract_slide_text_swallows_witness :
  ∃ d, _extract_slide_text
         {| heading_count := Returned 1%nat;
            heading_inner_text := Raised (RuntimeError "detached");
            paragraph_inner_texts := Raised pw_timeout;
            slide_inner_text := Raised (ValueError "gone") |}
       = Returned d.
Proof.
  apply (extract_slide_text_swallows_text_errors
           {| heading_count := Returned 1%nat;
              heading_inner_text := Raised (RuntimeError "detached");
              paragraph_inner_texts := Raised pw_timeout;
              slide_inner_text := Raised (ValueError "gone") |} 1%nat);
    [reflexivity | intros e [= <-]; reflexivity ..].
Defined.

(** The "load more" button is not there. *)
Lemma click_load_more_hidden_witness :
  let btn := stub_locator (Returned 10%nat) (Returned None) (Returned false)
               (Returned ()) (Returned ()) in
  click_load_more_until_end (stub_live_page btn) "article" 50 ()
  = {| ended := Returned ();
       final := ();
       logged := [ Evaluate "window.scrollTo(0, document.body.scrollHeight)";
                   WaitForTimeout 500; IsVisible 1500 ] |}.
Proof.
  apply (click_load_more_stops_when_hidden
           (stub_live_page
              (stub_locator (Returned 10%nat) (Returned None) (Returned false)
                 (Returned ()) (Returned ())))
           "article" 50 (Returned false) () () () ());
    [lia | reflexivity ..].
Defined.

(** Both clicks time out and the link has no "href". *)
Lemma click_or_goto_falls_back_witness :
  let link := stub_locator (Returned 1%nat) (Returned None) (Returned true)
                (Raised pw_timeout) (Raised pw_timeout) in
  click_or_goto link (py "https://fpftech.com/blog/") (stub_live_page link)
    3000 ()
  = {| ended := Returned ();
       final := ();
       logged := [ GetAttribute "href"; Click (Some 3000) false;
                   Click (Some 3000) true;
                   Goto (py "https://fpftech.com/blog/") "domcontentloaded" ] |}.
Proof.
  apply (click_or_goto_falls_back
           (stub_locator (Returned 1%nat) (Returned None) (Returned true)
              (Raised pw_timeout) (Raised pw_timeout))
           (py "https://fpftech.com/blog/")
           (stub_live_page
              (stub_locator (Returned 1%nat) (Returned None) (Returned true)
                 (Raised pw_timeout) (Raised pw_timeout)))
           3000 (Returned None) pw_timeout pw_timeout (Returned ())
           () () () () ());
    [reflexivity | exact I | reflexivity ..].
Defined.

(** Reading the "href" fails, and then the click fails for another
    reason than a timeout. *)
Lemma click_or_goto_other_error_witness :
  let link := stub_locator (Returned 1%nat)
                (Raised (RuntimeError "detached")) (Returned true)
                (Raised (RuntimeError "detached")) (Returned ()) in
  click_or_goto link (py "https://fpftech.com/blog/") (stub_live_page link)
    3000 ()
  = {| ended := Raised (RuntimeError "detached");
       final := ();
       logged := [ GetAttribute "href"; Click (Some 3000) false ] |}.
Proof.
  apply (click_or_goto_other_error
           (stub_locator (Returned 1%nat)
              (Raised (RuntimeError "detached")) (Returned true)
              (Raised (RuntimeError "detached")) (Returned ()))
           (py "https://fpftech.com/blog/")
           (stub_live_page
              (stub_locator (Returned 1%nat)
                 (Raised (RuntimeError "detached")) (Returned true)
                 (Raised (RuntimeError "detached")) (Returned ())))
           3000 (Raised (RuntimeError "detached")) (RuntimeError "detached")
           () () ());
    reflexivity.
Defined.
